(** * AlpycaClient: a shallow embedding of [alpycaclient.py]

    The module wraps the HTTP requests of the ASCOM Alpaca API into
    classes.  Its logic is the construction of the base URL, the two
    request shapes [_get] and [_put], the classification of responses by
    [__check_error], the two exception classes, the [UTCDate] setter of
    the telescope and the factory [CreateClient].

    Python values are modelled by [PyVal], exceptions by [PyExc], a
    computation that may raise by [Result], and the code that talks to
    the network by the monad [M], which threads the list of requests
    issued so far.  What the module takes from outside (the [str]
    builtin on arbitrary objects, the JSON decoder behind
    [Response.json()], the server behind the [requests] library and the
    objects it imports) is the interface [Runtime]. *)

From Stdlib Require Import ZArith String Ascii List Bool Lia.
From Stdlib Require Import Decimal DecimalString DecimalZ DecimalPos SpecFloat.
Import ListNotations.

Local Open Scope string_scope.
Local Open Scope Z_scope.

Set Warnings "-register-all".

(** ** Python values and exceptions *)

(** [datetime.datetime]: the calendar fields and the UTC offset of the
    attached [tzinfo], in microseconds ([None] for a naive value). *)
Record datetime := mk_datetime {
  year : Z; month : Z; day : Z;
  hour : Z; minute : Z; second : Z; microsecond : Z;
  utcoffset : option Z
}.

(** The objects that flow through the module: what [json] decoding
    yields, what callers pass as keyword arguments, and [datetime]. *)
Inductive PyVal :=
| PNone
| PBool (b : bool)
| PInt (z : Z)
| PFloat (f : spec_float)
| PStr (s : string)
| PList (l : list PyVal)
| PTuple (l : list PyVal)
| PDict (d : list (string * PyVal))
| PDatetime (dt : datetime).

(** Exceptions.  [ErrorMessage] and [NumericError] are the two classes of
    the module; each instance has the single attribute [message]. *)
Inductive PyExc :=
| ErrorMessage (message : string)
| NumericError (message : string)
| TypeError
| KeyError (key : PyVal)
| ValueError
| OverflowError
| JSONDecodeError
| IndexError
| RecursionError
| RequestException.

Inductive Result (A : Type) :=
| Ok (a : A)
| Raise (e : PyExc).
Arguments Ok {A} a.
Arguments Raise {A} e.

Definition rbind {A B} (r : Result A) (k : A -> Result B) : Result B :=
  match r with
  | Ok a => k a
  | Raise e => Raise e
  end.

Notation "x <~ c ;; k" := (rbind c (fun x => k))
  (at level 61, c at next level, right associativity).

(** The [message] attribute, for the two classes that have one. *)
Definition message_of (e : PyExc) : option string :=
  match e with
  | ErrorMessage m => Some m
  | NumericError m => Some m
  | _ => None
  end.

(** ** What the module takes from outside *)

Definition kwargs := list (string * PyVal).

Inductive Method := GET | PUT.

(** A request as the [requests] library receives it: [params] goes into
    the query string of the URL, [data] is form-encoded into the body. *)
Record Request := mk_request {
  method : Method;
  url : string;
  params : kwargs;
  data : kwargs
}.

Record Response := mk_response {
  status_code : Z;
  text : string
}.

Class Runtime := {
  (** [str(v)] for the objects whose rendering is not fixed below *)
  str_builtin : PyVal -> string;
  (** the decoder behind [Response.json()]; [None] is a decoding error *)
  json_loads : string -> option PyVal;
  (** the answer to the [k]-th request issued, counted from 0 *)
  exchange : nat -> Request -> Result Response;
  (** the call of an object the module imports or inherits, by name *)
  call_foreign : string -> list PyVal -> Result PyVal
}.

(** ** Builtins: [str], [int], [%] formatting, [split], subscripting *)

Definition decimal (z : Z) : string := NilZero.string_of_int (Z.to_int z).

Definition py_str `{Runtime} (v : PyVal) : string :=
  match v with
  | PStr s => s
  | PInt z => decimal z
  | PBool true => "True"
  | PBool false => "False"
  | PNone => "None"
  | _ => str_builtin v
  end.

(** [int(f)] for a float: truncation towards zero. *)
Definition float_trunc (f : spec_float) : Result Z :=
  match f with
  | S754_zero _ => Ok 0
  | S754_infinity _ => Raise OverflowError
  | S754_nan => Raise ValueError
  | S754_finite s m e =>
      let a := if 0 <=? e then Z.shiftl (Z.pos m) e
               else Z.shiftr (Z.pos m) (- e) in
      Ok (if s then - a else a)
  end.

(** The conversion [%d]. *)
Definition format_d (v : PyVal) : Result string :=
  match v with
  | PInt z => Ok (decimal z)
  | PBool b => Ok (if b then "1" else "0")
  | PFloat f => z <~ float_trunc f ;; Ok (decimal z)
  | _ => Raise TypeError
  end.

(** [fmt % args] for the conversions the module uses: [%s], [%d] and the
    escape [%%]. *)
Fixpoint py_format `{Runtime} (fmt : string) (args : list PyVal)
  : Result string :=
  match fmt with
  | EmptyString =>
      match args with
      | [] => Ok EmptyString
      | _ :: _ => Raise TypeError
      end
  | String "%" (String c rest) =>
      if Ascii.eqb c "%" then
        r <~ py_format rest args ;; Ok (String "%" r)
      else
        match args with
        | [] => Raise TypeError
        | v :: args' =>
            if Ascii.eqb c "s" then
              r <~ py_format rest args' ;; Ok (py_str v ++ r)
            else if Ascii.eqb c "d" then
              x <~ format_d v ;;
              r <~ py_format rest args' ;; Ok (x ++ r)
            else Raise ValueError
        end
  | String "%" EmptyString => Raise ValueError
  | String c rest => r <~ py_format rest args ;; Ok (String c r)
  end.

(** [s.split(sep)] for a one-character separator: never empty. *)
Fixpoint split (sep : ascii) (s : string) : list string :=
  match s with
  | EmptyString => [EmptyString]
  | String c s' =>
      if Ascii.eqb c sep then EmptyString :: split sep s'
      else match split sep s' with
           | [] => [String c EmptyString]
           | p :: ps => String c p :: ps
           end
  end.

(** The characters [int] strips from both ends of its argument, a
    character being a code point below 256: tab to carriage return, the
    space, the next-line control and the no-break space. *)
Definition is_space (c : ascii) : bool :=
  let n := nat_of_ascii c in
  ((9 <=? n) && (n <=? 13) || (n =? 32) || (n =? 133) || (n =? 160))%nat.

Definition is_digit (c : ascii) : bool :=
  let n := nat_of_ascii c in ((48 <=? n) && (n <=? 57))%nat.

Definition digit_val (c : ascii) : Z := Z.of_nat (nat_of_ascii c) - 48.

Fixpoint lstrip (s : string) : string :=
  match s with
  | EmptyString => EmptyString
  | String c s' => if is_space c then lstrip s' else s
  end.

Fixpoint rstrip (s : string) : string :=
  match s with
  | EmptyString => EmptyString
  | String c s' =>
      match rstrip s' with
      | EmptyString => if is_space c then EmptyString
                       else String c EmptyString
      | r => String c r
      end
  end.

(** Decimal digits, where single underscores may separate two digits. *)
Fixpoint digits (s : string) (acc : Z) (after_digit : bool) : option Z :=
  match s with
  | EmptyString => if after_digit then Some acc else None
  | String c s' =>
      if is_digit c then digits s' (10 * acc + digit_val c) true
      else if Ascii.eqb c "_" then
        if after_digit then digits s' acc false else None
      else None
  end.

(** [int(s)] for a string, base 10; [None] is [ValueError].  The limit
    the interpreter may put on the number of digits is left out. *)
Definition py_int (s : string) : option Z :=
  match rstrip (lstrip s) with
  | EmptyString => None
  | String c body =>
      if Ascii.eqb c "-" then option_map Z.opp (digits body 0 false)
      else if Ascii.eqb c "+" then digits body 0 false
      else digits (String c body) 0 false
  end.

Fixpoint dict_get (d : list (string * PyVal)) (key : string)
  : option PyVal :=
  match d with
  | [] => None
  | (k, v) :: d' => if String.eqb k key then Some v else dict_get d' key
  end.

(** [v[key]] for a string key. *)
Definition getitem (v : PyVal) (key : string) : Result PyVal :=
  match v with
  | PDict d =>
      match dict_get d key with
      | Some x => Ok x
      | None => Raise (KeyError (PStr key))
      end
  | _ => Raise TypeError
  end.

(** [v != 0]. *)
Definition ne_zero (v : PyVal) : bool :=
  match v with
  | PInt z => negb (z =? 0)
  | PBool b => b
  | PFloat (S754_zero _) => false
  | _ => true
  end.

(** [datetime.isoformat()]: the date, [T], the time, the microseconds
    when they are not zero, the offset when there is one. *)
Definition zero_pad (width : nat) (z : Z) : string :=
  let pad (w : nat) (s : string) :=
    string_of_list_ascii (repeat "0"%char (w - String.length s)) ++ s in
  if z <? 0 then String "-" (pad (width - 1)%nat (decimal (- z)))
  else pad width (decimal z).

Definition format_offset (off : option Z) : string :=
  match off with
  | None => EmptyString
  | Some o =>
      let sign := if o <? 0 then "-" else "+" in
      let a := Z.abs o in
      let hh := a / 3600000000 in
      let r := a mod 3600000000 in
      let mm := r / 60000000 in
      let ss := r mod 60000000 in
      sign ++ zero_pad 2 hh ++ ":" ++ zero_pad 2 mm ++
      (if ss =? 0 then EmptyString
       else ":" ++ zero_pad 2 (ss / 1000000) ++
            (if ss mod 1000000 =? 0 then EmptyString
             else "." ++ zero_pad 6 (ss mod 1000000)))
  end.

Definition isoformat (dt : datetime) : string :=
  zero_pad 4 (year dt) ++ "-" ++ zero_pad 2 (month dt) ++ "-" ++
  zero_pad 2 (day dt) ++ "T" ++ zero_pad 2 (hour dt) ++ ":" ++
  zero_pad 2 (minute dt) ++ ":" ++ zero_pad 2 (second dt) ++
  (if microsecond dt =? 0 then EmptyString
   else "." ++ zero_pad 6 (microsecond dt)) ++
  format_offset (utcoffset dt).

(** ** The monad of code that issues requests

    The state is the list of requests issued so far, oldest first; it
    survives an exception. *)

Definition Log := list Request.

Definition M (A : Type) := Log -> Result A * Log.

Definition ret {A} (a : A) : M A := fun log => (Ok a, log).

Definition lift {A} (r : Result A) : M A := fun log => (r, log).

Definition bind {A B} (c : M A) (k : A -> M B) : M B :=
  fun log =>
    match c log with
    | (Ok a, log') => k a log'
    | (Raise e, log') => (Raise e, log')
    end.

Notation "x <- c ;; k" := (bind c (fun x => k))
  (at level 61, c at next level, right associativity).

(** One round trip. *)
Definition send `{Runtime} (req : Request) : M Response :=
  fun log => (exchange (List.length log) req, (log ++ [req])%list).

(** [requests.get(url, params=..., data=...)] and [requests.put]. *)
Definition requests_get `{Runtime} (url : string) (params data : kwargs)
  : M Response :=
  send (mk_request GET url params data).

Definition requests_put `{Runtime} (url : string) (params data : kwargs)
  : M Response :=
  send (mk_request PUT url params data).

(** [response.json()]. *)
Definition Response_json `{Runtime} (response : Response) : Result PyVal :=
  match json_loads (text response) with
  | Some j => Ok j
  | None => Raise JSONDecodeError
  end.

(** ** The exception classes *)

Module NumericError.

Definition __init__ `{Runtime} (ErrorNumber ErrorMessage : PyVal)
  : Result PyExc :=
  message <~ py_format "Error %d: %s" [ErrorNumber; ErrorMessage] ;;
  Ok (NumericError message).

End NumericError.

Module ErrorMessage.

Definition __init__ (Value : string) : Result PyExc :=
  Ok (ErrorMessage Value).

End ErrorMessage.

(** ** [class Device] *)

Definition DEFAULT_API_VERSION : Z := 1.

Module Device.

Record t := mk {
  address : string;
  device_type : string;
  device_number : Z;
  api_version : Z;
  base_url : string
}.

Definition __init__ `{Runtime} (address device_type : string)
  (device_number : Z) (protocall : string) (api_version : Z) : Result t :=
  base_url <~ py_format "%s://%s/api/v%d/%s/%d"
                [PStr protocall; PStr address; PInt api_version;
                 PStr device_type; PInt device_number] ;;
  Ok (mk address device_type device_number api_version base_url).

Definition __check_error `{Runtime} (response : Response) : Result unit :=
  if (status_code response =? 400) || (status_code response =? 500) then
    e <~ ErrorMessage.__init__ (text response) ;;
    Raise e
  else if status_code response =? 200 then
    j <~ Response_json response ;;
    n <~ getitem j "ErrorNumber" ;;
    if ne_zero n then
      ErrorNumber <~ getitem j "ErrorNumber" ;;
      ErrorMessage <~ getitem j "ErrorMessage" ;;
      e <~ NumericError.__init__ ErrorNumber ErrorMessage ;;
      Raise e
    else Ok tt
  else Ok tt.

Definition _get `{Runtime} (self : t) (attribute : string) (data : kwargs)
  : M PyVal :=
  url <- lift (py_format "%s/%s" [PStr (base_url self); PStr attribute]) ;;
  response <- requests_get url [] data ;;
  _ <- lift (__check_error response) ;;
  j <- lift (Response_json response) ;;
  lift (getitem j "Value").

Definition _put `{Runtime} (self : t) (attribute : string) (data : kwargs)
  : M PyVal :=
  url <- lift (py_format "%s/%s" [PStr (base_url self); PStr attribute]) ;;
  response <- requests_put url [] data ;;
  _ <- lift (__check_error response) ;;
  lift (Response_json response).

Definition Action `{Runtime} (self : t) (Action : string)
  (Parameters : list PyVal) : M PyVal :=
  r <- _put self "action"
         [("Action", PStr Action); ("Parameters", PTuple Parameters)] ;;
  lift (getitem r "Value").

Definition Connected `{Runtime} (self : t) : M PyVal :=
  _get self "connected" [].

Definition Connected_setter `{Runtime} (self : t) (Connected : bool)
  : M unit :=
  _ <- _put self "connected" [("Connected", PBool Connected)] ;;
  ret tt.

Definition Description `{Runtime} (self : t) : M PyVal :=
  _get self "name" [].

Definition Name `{Runtime} (self : t) : M PyVal :=
  _get self "name" [].

End Device.

(** ** The device classes *)

Inductive DeviceClass :=
| Switch | SafetyMonitor | Dome | Camera
| FilterWheel | Telescope | Rotator | Focuser.

(** The [device_type] each class passes to [Device.__init__]. *)
Definition device_type_of (c : DeviceClass) : string :=
  match c with
  | Switch => "switch"
  | SafetyMonitor => "safetymonitor"
  | Dome => "dome"
  | Camera => "camera"
  | FilterWheel => "filterwheel"
  | Telescope => "telescope"
  | Rotator => "rotator"
  | Focuser => "focuser"
  end.

Definition class_name (c : DeviceClass) : string :=
  match c with
  | Switch => "Switch"
  | SafetyMonitor => "SafetyMonitor"
  | Dome => "Dome"
  | Camera => "Camera"
  | FilterWheel => "FilterWheel"
  | Telescope => "Telescope"
  | Rotator => "Rotator"
  | Focuser => "Focuser"
  end.

(** [__init__] of a device class; [None] is an argument left to its
    default. *)
Definition class_init `{Runtime} (c : DeviceClass) (address : string)
  (device_number : Z) (protocall : option string) (api_version : option Z)
  : Result Device.t :=
  Device.__init__ address (device_type_of c) device_number
    (match protocall with Some p => p | None => "http" end)
    (match api_version with Some v => v | None => DEFAULT_API_VERSION end).

Module Switch.

Definition GetSwitch `{Runtime} (self : Device.t) (Id : Z) : M PyVal :=
  Device._get self "getswitch" [("Id", PInt Id)].

Definition SetSwitch `{Runtime} (self : Device.t) (Id : Z) (State : bool)
  : M unit :=
  _ <- Device._put self "setswitch" [("Id", PInt Id); ("State", PBool State)] ;;
  ret tt.

End Switch.

Module Telescope.

Definition RightAscension `{Runtime} (self : Device.t) : M PyVal :=
  Device._get self "rightascension" [].

Definition UTCDate_setter `{Runtime} (self : Device.t) (UTCDate : PyVal)
  : M unit :=
  data <- lift (match UTCDate with
                | PStr s => Ok s
                | PDatetime dt => Ok (isoformat dt)
                | _ => Raise TypeError
                end) ;;
  _ <- Device._put self "utcdate" [("UTCDate", PStr data)] ;;
  ret tt.

End Telescope.

(** ** [CreateClient] *)

(** What a module-level name is bound to. *)
Inductive Global :=
| GClass (c : DeviceClass)
| GDevice
| GNumericError
| GErrorMessage
| GCreateClient
| GConstant
| GForeign (name : string).

(** [globals()]: the classes and the function of the module, its
    constant, the names it imports and the attributes every module has. *)
Definition module_globals : list (string * Global) :=
  [ ("Switch", GClass Switch); ("SafetyMonitor", GClass SafetyMonitor);
    ("Dome", GClass Dome); ("Camera", GClass Camera);
    ("FilterWheel", GClass FilterWheel); ("Telescope", GClass Telescope);
    ("Rotator", GClass Rotator); ("Focuser", GClass Focuser);
    ("Device", GDevice); ("NumericError", GNumericError);
    ("ErrorMessage", GErrorMessage); ("CreateClient", GCreateClient);
    ("DEFAULT_API_VERSION", GConstant) ]
  ++ map (fun name => (name, GForeign name))
       [ "datetime"; "Optional"; "Union"; "List"; "Dict"; "Mapping"; "Any";
         "dateutil"; "requests";
         "__name__"; "__doc__"; "__package__"; "__loader__"; "__spec__";
         "__file__"; "__cached__"; "__builtins__" ].

Fixpoint globals_get (g : list (string * Global)) (key : string)
  : option Global :=
  match g with
  | [] => None
  | (k, v) :: g' => if String.eqb k key then Some v else globals_get g' key
  end.

(** What the factory can return: an instance of a device class, an
    instance of an exception class, or what a foreign object returns. *)
Inductive Object :=
| Instance (c : DeviceClass) (self : Device.t)
| ExcInstance (e : PyExc)
| Foreign (v : PyVal).

Inductive Conv := conv_str | conv_int.

Definition convert (typ : Conv) (val : string) : Result PyVal :=
  match typ with
  | conv_str => Ok (PStr val)
  | conv_int =>
      match py_int val with
      | Some z => Ok (PInt z)
      | None => Raise ValueError
      end
  end.

Fixpoint convert_all (l : list (Conv * string)) : Result (list PyVal) :=
  match l with
  | [] => Ok []
  | (typ, val) :: l' =>
      v <~ convert typ val ;;
      vs <~ convert_all l' ;;
      Ok (v :: vs)
  end.

(** The call of [g] on the unpacked [args], with the factory itself as
    [self_call]. *)
Definition call `{Runtime} (self_call : string -> Result Object)
  (g : Global) (args : list PyVal) : Result Object :=
  match g, args with
  | GClass c, [PStr address; PInt device_number] =>
      self <~ class_init c address device_number None None ;;
      Ok (Instance c self)
  | GNumericError, [number; message] =>
      e <~ NumericError.__init__ number message ;;
      Ok (ExcInstance e)
  | GErrorMessage, [PStr Value] =>
      e <~ ErrorMessage.__init__ Value ;;
      Ok (ExcInstance e)
  | GCreateClient, [PStr name] => self_call name
  | GForeign name, _ =>
      v <~ call_foreign name args ;;
      Ok (Foreign v)
  | _, _ => Raise TypeError
  end.

Definition recursion_limit : nat := 1000.

Fixpoint CreateClient_rec `{Runtime} (depth : nat) (name : string)
  : Result Object :=
  match depth with
  | O => Raise RecursionError
  | S depth' =>
      devname <~ convert_all
                   (combine [conv_str; conv_str; conv_int]
                            (split "/" name)) ;;
      match devname with
      | PStr d0 :: args =>
          match globals_get module_globals d0 with
          | Some g => call (CreateClient_rec depth') g args
          | None => Raise (KeyError (PStr d0))
          end
      | d0 :: _ => Raise (KeyError d0)
      | [] => Raise IndexError
      end
  end.

Definition CreateClient `{Runtime} (name : string) : Result Object :=
  CreateClient_rec recursion_limit name.

(** ** A concrete runtime, for running the model

    The server answers the [k]-th request from a list of canned
    responses and the decoder reads bodies from a table. *)

Fixpoint assoc_string {A} (table : list (string * A)) (key : string)
  : option A :=
  match table with
  | [] => None
  | (k, v) :: table' =>
      if String.eqb k key then Some v else assoc_string table' key
  end.

Definition canned (responses : list Response) (bodies : list (string * PyVal))
  : Runtime :=
  {| str_builtin := fun _ => "<object>";
     json_loads := assoc_string bodies;
     exchange := fun k _ =>
       match nth_error responses k with
       | Some r => Ok r
       | None => Raise RequestException
       end;
     call_foreign := fun _ _ => Raise TypeError |}.

(** A telescope and a switch on the server [10.0.0.5], as
    [Device.__init__] builds them. *)
Definition telescope0 : Device.t :=
  Device.mk "10.0.0.5" "telescope" 0 1 "http://10.0.0.5/api/v1/telescope/0".

Definition switch0 : Device.t :=
  Device.mk "10.0.0.5" "switch" 0 1 "http://10.0.0.5/api/v1/switch/0".

(** The body of a failed [setswitch] and the body of a successful read. *)
Definition invalid_switch_id : PyVal :=
  PDict [("ErrorNumber", PInt 1025);
         ("ErrorMessage", PStr "Invalid switch id")].

Definition right_ascension : PyVal :=
  PDict [("ErrorNumber", PInt 0);
         ("ErrorMessage", PStr EmptyString);
         ("Value", PFloat (S754_finite false 25 (-1)))].

Definition bodies : list (string * PyVal) :=
  [("invalid-switch-id", invalid_switch_id);
   ("right-ascension", right_ascension)].

(** ** The requests the two executors issue *)

Definition get_request (self : Device.t) (attribute : string)
  (data : kwargs) : Request :=
  mk_request GET (Device.base_url self ++ "/" ++ attribute) [] data.

Definition put_request (self : Device.t) (attribute : string)
  (data : kwargs) : Request :=
  mk_request PUT (Device.base_url self ++ "/" ++ attribute) [] data.

(** What [_get] and [_put] make of a response once it has arrived. *)
Definition get_outcome `{Runtime} (response : Response) : Result PyVal :=
  _ <~ Device.__check_error response ;;
  j <~ Response_json response ;;
  getitem j "Value".

Definition put_outcome `{Runtime} (response : Response) : Result PyVal :=
  _ <~ Device.__check_error response ;;
  Response_json response.

(** A string that holds no [/]. *)
Fixpoint no_slash (s : string) : bool :=
  match s with
  | EmptyString => true
  | String c s' => negb (Ascii.eqb c "/") && no_slash s'
  end.

(** A string made of the characters a decimal rendering can hold. *)
Definition sign_or_digit (c : ascii) : bool :=
  is_digit c || Ascii.eqb c "-".

Fixpoint rendering (s : string) : bool :=
  match s with
  | EmptyString => true
  | String c s' => sign_or_digit c && rendering s'
  end.

(** ** The other methods of [Device] *)

(** The characters [str.strip()] removes, a character being a code point
    below 256: those of [int], and the four separators 28 to 31. *)
Definition is_space_str (c : ascii) : bool :=
  let n := nat_of_ascii c in
  ((9 <=? n) && (n <=? 13) || (28 <=? n) && (n <=? 32)
   || (n =? 133) || (n =? 160))%nat.

Fixpoint str_lstrip (s : string) : string :=
  match s with
  | EmptyString => EmptyString
  | String c s' => if is_space_str c then str_lstrip s' else s
  end.

Fixpoint str_rstrip (s : string) : string :=
  match s with
  | EmptyString => EmptyString
  | String c s' =>
      match str_rstrip s' with
      | EmptyString => if is_space_str c then EmptyString
                       else String c EmptyString
      | r => String c r
      end
  end.

(** [s.strip()]. *)
Definition strip (s : string) : string := str_rstrip (str_lstrip s).

(** The outcome of calling a method of a value: [AttributeError] is what
    Python raises when the value has no method of that name. *)
Inductive Attr (A : Type) :=
| HasAttr (a : A)
| AttributeError (name : string).
Arguments HasAttr {A} a.
Arguments AttributeError {A} name.

Module DeviceMethods.

Definition CommandBlind `{Runtime} (self : Device.t) (Command : string)
  (Raw : bool) : M unit :=
  _ <- Device._put self "commandblind"
         [("Command", PStr Command); ("Raw", PBool Raw)] ;;
  ret tt.

Definition CommandBool `{Runtime} (self : Device.t) (Command : string)
  (Raw : bool) : M PyVal :=
  r <- Device._put self "commandbool"
         [("Command", PStr Command); ("Raw", PBool Raw)] ;;
  lift (getitem r "Value").

Definition CommandString `{Runtime} (self : Device.t) (Command : string)
  (Raw : bool) : M PyVal :=
  r <- Device._put self "commandstring"
         [("Command", PStr Command); ("Raw", PBool Raw)] ;;
  lift (getitem r "Value").

(** Only a [str] has the method [split]. *)
Definition DriverInfo `{Runtime} (self : Device.t)
  : M (Attr (list string)) :=
  v <- Device._get self "driverinfo" [] ;;
  ret (match v with
       | PStr s => HasAttr (map strip (split "," s))
       | _ => AttributeError "split"
       end).

End DeviceMethods.

(** The number of occurrences of a character. *)
Fixpoint count_char (c : ascii) (s : string) : nat :=
  match s with
  | EmptyString => O
  | String c' s' => (if Ascii.eqb c' c then 1 else 0) + count_char c s'
  end.

(** A string that does not hold the character [c]. *)
Fixpoint free_of (c : ascii) (s : string) : bool :=
  match s with
  | EmptyString => true
  | String c' s' => negb (Ascii.eqb c' c) && free_of c s'
  end.

(** A string that neither begins nor ends with a character [str.strip()]
    removes. *)
Definition begins_blank (s : string) : bool :=
  match s with
  | EmptyString => false
  | String c _ => is_space_str c
  end.

Fixpoint ends_blank (s : string) : bool :=
  match s with
  | EmptyString => false
  | String c EmptyString => is_space_str c
  | String _ s' => ends_blank s'
  end.

(** ** The accessors of the device classes

    Apart from [Action], [CommandBool], [CommandString], [DriverInfo] and
    [UTCDate], every property and method of [Device] and of the eight
    device classes has one statement: a getter or a reading method
    returns [self._get(attribute, Key=Key, ...)], a setter or a writing
    method calls [self._put(attribute, Key=Key, ...)] and returns [None],
    the keywords being the parameters of the method in their order.  An
    [Accessor] records what such a definition fixes, and [accessors]
    lists them in the order of the module. *)

Inductive Owner :=
| AnyDevice
| Only (c : DeviceClass).

Inductive Form := Property | PropertySetter | Plain.

Inductive Kind := Read | Write.

Record Accessor := mk_accessor {
  owner : Owner;
  py_name : string;
  form : Form;
  kind : Kind;
  wire : string;
  (** the parameters after [self], each with its default if it has one *)
  parameters : list (string * option PyVal)
}.

(** The positional arguments of a call, bound to the parameters: too many
    arguments, or none for a parameter without default, is [TypeError]. *)
Fixpoint bind_args (ps : list (string * option PyVal)) (args : list PyVal)
  : Result kwargs :=
  match ps, args with
  | [], [] => Ok []
  | [], _ :: _ => Raise TypeError
  | (key, _) :: ps', v :: args' =>
      kw <~ bind_args ps' args' ;; Ok ((key, v) :: kw)
  | (key, Some v) :: ps', [] =>
      kw <~ bind_args ps' [] ;; Ok ((key, v) :: kw)
  | (_, None) :: _, [] => Raise TypeError
  end.

(** The call of an accessor on [self] with positional arguments. *)
Definition invoke `{Runtime} (a : Accessor) (self : Device.t)
  (args : list PyVal) : M PyVal :=
  kw <- lift (bind_args (parameters a) args) ;;
  match kind a with
  | Read => Device._get self (wire a) kw
  | Write => _ <- Device._put self (wire a) kw ;; ret PNone
  end.

Definition accessors : list Accessor :=
  [
    mk_accessor AnyDevice "CommandBlind" Plain Write "commandblind"
      [("Command", None); ("Raw", None)];
    mk_accessor AnyDevice "Connected" Property Read "connected" [];
    mk_accessor AnyDevice "Connected" PropertySetter Write "connected"
      [("Connected", None)];
    mk_accessor AnyDevice "Description" Property Read "name" [];
    mk_accessor AnyDevice "DriverVersion" Property Read "driverversion" [];
    mk_accessor AnyDevice "InterfaceVersion" Property Read "interfaceversion"
      [];
    mk_accessor AnyDevice "Name" Property Read "name" [];
    mk_accessor AnyDevice "SupportedActions" Property Read "supportedactions"
      [];
    mk_accessor (Only Switch) "MaxSwitch" Property Read "maxswitch" [];
    mk_accessor (Only Switch) "CanWrite" Plain Read "canwrite"
      [("Id", (Some (PInt 0)))];
    mk_accessor (Only Switch) "GetSwitch" Plain Read "getswitch"
      [("Id", (Some (PInt 0)))];
    mk_accessor (Only Switch) "GetSwitchDescription" Plain Read "getswitchdescription"
      [("Id", (Some (PInt 0)))];
    mk_accessor (Only Switch) "GetSwitchName" Plain Read "getswitchname"
      [("Id", (Some (PInt 0)))];
    mk_accessor (Only Switch) "GetSwitchValue" Plain Read "getswitchvalue"
      [("Id", (Some (PInt 0)))];
    mk_accessor (Only Switch) "MinSwitchValue" Plain Read "minswitchvalue"
      [("Id", (Some (PInt 0)))];
    mk_accessor (Only Switch) "SetSwitch" Plain Write "setswitch"
      [("Id", None); ("State", None)];
    mk_accessor (Only Switch) "SetSwitchName" Plain Write "setswitchname"
      [("Id", None); ("Name", None)];
    mk_accessor (Only Switch) "SetSwitchValue" Plain Write "setswitchvalue"
      [("Id", None); ("Value", None)];
    mk_accessor (Only Switch) "SwitchStep" Plain Read "switchstep"
      [("Id", (Some (PInt 0)))];
    mk_accessor (Only SafetyMonitor) "IsSafe" Property Read "issafe" [];
    mk_accessor (Only Dome) "Altitude" Property Read "altitude" [];
    mk_accessor (Only Dome) "AtHome" Property Read "athome" [];
    mk_accessor (Only Dome) "AtPark" Property Read "atpark" [];
    mk_accessor (Only Dome) "Azimuth" Property Read "azimuth" [];
    mk_accessor (Only Dome) "CanFindHome" Property Read "canfindhome" [];
    mk_accessor (Only Dome) "CanPark" Property Read "canpark" [];
    mk_accessor (Only Dome) "CanSetAltitude" Property Read "cansetaltitude"
      [];
    mk_accessor (Only Dome) "CanSetAzimuth" Property Read "cansetazimuth" [];
    mk_accessor (Only Dome) "CanSetPark" Property Read "cansetpark" [];
    mk_accessor (Only Dome) "CanSetShutter" Property Read "cansetshutter" [];
    mk_accessor (Only Dome) "CanSlave" Property Read "canslave" [];
    mk_accessor (Only Dome) "CanSyncAzimuth" Property Read "cansyncazimuth"
      [];
    mk_accessor (Only Dome) "ShutterStatus" Property Read "shutterstatus" [];
    mk_accessor (Only Dome) "Slaved" Property Read "slaved" [];
    mk_accessor (Only Dome) "Slaved" PropertySetter Write "slaved"
      [("Slaved", None)];
    mk_accessor (Only Dome) "Slewing" Property Read "slewing" [];
    mk_accessor (Only Dome) "AbortSlew" Plain Write "abortslew" [];
    mk_accessor (Only Dome) "CloseShutter" Plain Write "closeshutter" [];
    mk_accessor (Only Dome) "FindHome" Plain Write "findhome" [];
    mk_accessor (Only Dome) "OpenShutter" Plain Write "openshutter" [];
    mk_accessor (Only Dome) "Park" Plain Write "park" [];
    mk_accessor (Only Dome) "SetPark" Plain Write "setpark" [];
    mk_accessor (Only Dome) "SlewToAltitude" Plain Write "slewtoaltitude"
      [("Altitude", None)];
    mk_accessor (Only Dome) "SlewToAzimuth" Plain Write "slewtoazimuth"
      [("Azimuth", None)];
    mk_accessor (Only Dome) "SyncToAzimuth" Plain Write "synctoazimuth"
      [("Azimuth", None)];
    mk_accessor (Only Camera) "BayerOffsetX" Property Read "bayeroffsetx" [];
    mk_accessor (Only Camera) "BayerOffsetY" Property Read "bayeroffsety" [];
    mk_accessor (Only Camera) "BinX" Property Read "binx" [];
    mk_accessor (Only Camera) "BinX" PropertySetter Write "binx"
      [("BinX", None)];
    mk_accessor (Only Camera) "BinY" Property Read "biny" [];
    mk_accessor (Only Camera) "BinY" PropertySetter Write "biny"
      [("BinY", None)];
    mk_accessor (Only Camera) "CameraState" Property Read "camerastate" [];
    mk_accessor (Only Camera) "CameraXSize" Property Read "cameraxsize" [];
    mk_accessor (Only Camera) "CameraYSize" Property Read "cameraysize" [];
    mk_accessor (Only Camera) "CanAbortExposure" Property Read "canabortexposure"
      [];
    mk_accessor (Only Camera) "CanAsymmetricBin" Property Read "canasymmetricbin"
      [];
    mk_accessor (Only Camera) "CanFastReadout" Property Read "canfastreadout"
      [];
    mk_accessor (Only Camera) "CanGetCoolerPower" Property Read "cangetcoolerpower"
      [];
    mk_accessor (Only Camera) "CanPulseGuide" Property Read "canpulseguide"
      [];
    mk_accessor (Only Camera) "CanSetCCDTemperature" Property Read "cansetccdtemperature"
      [];
    mk_accessor (Only Camera) "CanStopExposure" Property Read "canstopexposure"
      [];
    mk_accessor (Only Camera) "CCDTemperature" Property Read "ccdtemperature"
      [];
    mk_accessor (Only Camera) "CoolerOn" Property Read "cooleron" [];
    mk_accessor (Only Camera) "CoolerOn" PropertySetter Write "cooleron"
      [("CoolerOn", None)];
    mk_accessor (Only Camera) "CoolerPower" Property Read "coolerpower" [];
    mk_accessor (Only Camera) "ElectronsPerADU" Property Read "electronsperadu"
      [];
    mk_accessor (Only Camera) "ExposureMax" Property Read "exposuremax" [];
    mk_accessor (Only Camera) "ExposureMin" Property Read "exposuremin" [];
    mk_accessor (Only Camera) "ExposureResolution" Property Read "exposureresolution"
      [];
    mk_accessor (Only Camera) "FastReadout" Property Read "fastreadout" [];
    mk_accessor (Only Camera) "FastReadout" PropertySetter Write "fastreadout"
      [("FastReadout", None)];
    mk_accessor (Only Camera) "FullWellCapacity" Property Read "fullwellcapacity"
      [];
    mk_accessor (Only Camera) "Gain" Property Read "gain" [];
    mk_accessor (Only Camera) "Gain" PropertySetter Write "gain"
      [("Gain", None)];
    mk_accessor (Only Camera) "GainMax" Property Read "gainmax" [];
    mk_accessor (Only Camera) "GainMin" Property Read "gainmin" [];
    mk_accessor (Only Camera) "Gains" Property Read "gains" [];
    mk_accessor (Only Camera) "HasShutter" Property Read "hasshutter" [];
    mk_accessor (Only Camera) "HeatSinkTemperature" Property Read "heatsinktemperature"
      [];
    mk_accessor (Only Camera) "ImageArray" Property Read "imagearray" [];
    mk_accessor (Only Camera) "ImageArrayVariant" Property Read "imagearrayvariant"
      [];
    mk_accessor (Only Camera) "ImageReady" Property Read "imageready" [];
    mk_accessor (Only Camera) "IsPulseGuiding" Property Read "ispulseguiding"
      [];
    mk_accessor (Only Camera) "LastExposureDuration" Property Read "lastexposureduration"
      [];
    mk_accessor (Only Camera) "LastExposureStartTime" Property Read "lastexposurestarttime"
      [];
    mk_accessor (Only Camera) "MaxADU" Property Read "maxadu" [];
    mk_accessor (Only Camera) "MaxBinX" Property Read "maxbinx" [];
    mk_accessor (Only Camera) "MaxBinY" Property Read "maxbiny" [];
    mk_accessor (Only Camera) "NumX" Property Read "numx" [];
    mk_accessor (Only Camera) "NumX" PropertySetter Write "numx"
      [("NumX", None)];
    mk_accessor (Only Camera) "NumY" Property Read "numy" [];
    mk_accessor (Only Camera) "NumY" PropertySetter Write "numy"
      [("NumY", None)];
    mk_accessor (Only Camera) "PercentCompleted" Property Read "percentcompleted"
      [];
    mk_accessor (Only Camera) "PixelSizeX" Property Read "pixelsizex" [];
    mk_accessor (Only Camera) "PixelSizeY" Property Read "pixelsizey" [];
    mk_accessor (Only Camera) "ReadoutMode" Property Read "readoutmode" [];
    mk_accessor (Only Camera) "ReadoutMode" PropertySetter Write "readoutmode"
      [("ReadoutMode", None)];
    mk_accessor (Only Camera) "ReadoutModes" Property Read "readoutmodes" [];
    mk_accessor (Only Camera) "SensorName" Property Read "sensorname" [];
    mk_accessor (Only Camera) "SensorType" Property Read "sensortype" [];
    mk_accessor (Only Camera) "SetCCDTemperature" Property Read "setccdtemperature"
      [];
    mk_accessor (Only Camera) "SetCCDTemperature" PropertySetter Write "setccdtemperature"
      [("SetCCDTemperature", None)];
    mk_accessor (Only Camera) "StartX" Property Read "startx" [];
    mk_accessor (Only Camera) "StartX" PropertySetter Write "startx"
      [("StartX", None)];
    mk_accessor (Only Camera) "StartY" Property Read "starty" [];
    mk_accessor (Only Camera) "StartY" PropertySetter Write "starty"
      [("StartY", None)];
    mk_accessor (Only Camera) "AbortExposure" Plain Write "abortexposure" [];
    mk_accessor (Only Camera) "PulseGuide" Plain Write "pulseguide"
      [("Direction", None); ("Duration", None)];
    mk_accessor (Only Camera) "StartExposure" Plain Write "startexposure"
      [("Duration", None); ("Light", None)];
    mk_accessor (Only Camera) "StopExposure" Plain Write "stopexposure" [];
    mk_accessor (Only FilterWheel) "FocusOffsets" Property Read "focusoffsets"
      [];
    mk_accessor (Only FilterWheel) "Names" Property Read "names" [];
    mk_accessor (Only FilterWheel) "Position" Property Read "position" [];
    mk_accessor (Only FilterWheel) "Position" PropertySetter Write "position"
      [("Position", None)];
    mk_accessor (Only Telescope) "AlignmentMode" Property Read "alignmentmode"
      [];
    mk_accessor (Only Telescope) "Altitude" Property Read "altitude" [];
    mk_accessor (Only Telescope) "ApertureArea" Property Read "aperturearea"
      [];
    mk_accessor (Only Telescope) "ApertureDiameter" Property Read "aperturediameter"
      [];
    mk_accessor (Only Telescope) "AtHome" Property Read "athome" [];
    mk_accessor (Only Telescope) "AtPark" Property Read "atpark" [];
    mk_accessor (Only Telescope) "Azimuth" Property Read "azimuth" [];
    mk_accessor (Only Telescope) "CanFindHome" Property Read "canfindhome" [];
    mk_accessor (Only Telescope) "CanPark" Property Read "canpark" [];
    mk_accessor (Only Telescope) "CanPulseGuide" Property Read "canpulseguide"
      [];
    mk_accessor (Only Telescope) "CanSetDeclinationRate" Property Read "cansetdeclinationrate"
      [];
    mk_accessor (Only Telescope) "CanSetGuideRates" Property Read "cansetguiderates"
      [];
    mk_accessor (Only Telescope) "CanSetPark" Property Read "cansetpark" [];
    mk_accessor (Only Telescope) "CanSetPierSide" Property Read "cansetpierside"
      [];
    mk_accessor (Only Telescope) "CanSetRightAscensionRate" Property Read "cansetrightascensionrate"
      [];
    mk_accessor (Only Telescope) "CanSetTracking" Property Read "cansettracking"
      [];
    mk_accessor (Only Telescope) "CanSlew" Property Read "canslew" [];
    mk_accessor (Only Telescope) "CanSlewAltAz" Property Read "canslewaltaz"
      [];
    mk_accessor (Only Telescope) "CanSlewAltAzAsync" Property Read "canslewaltazasync"
      [];
    mk_accessor (Only Telescope) "CanSync" Property Read "cansync" [];
    mk_accessor (Only Telescope) "CanSyncAltAz" Property Read "cansyncaltaz"
      [];
    mk_accessor (Only Telescope) "CanUnpark" Property Read "canunpark" [];
    mk_accessor (Only Telescope) "Declination" Property Read "declination" [];
    mk_accessor (Only Telescope) "DeclinationRate" Property Read "declinationrate"
      [];
    mk_accessor (Only Telescope) "DeclinationRate" PropertySetter Write "declinationrate"
      [("DeclinationRate", None)];
    mk_accessor (Only Telescope) "DoesRefraction" Property Read "doesrefraction"
      [];
    mk_accessor (Only Telescope) "DoesRefraction" PropertySetter Write "doesrefraction"
      [("DoesRefraction", None)];
    mk_accessor (Only Telescope) "EquatorialSystem" Property Read "equatorialsystem"
      [];
    mk_accessor (Only Telescope) "FocalLength" Property Read "focallength" [];
    mk_accessor (Only Telescope) "GuideRateDeclination" Property Read "guideratedeclination"
      [];
    mk_accessor (Only Telescope) "GuideRateDeclination" PropertySetter Write "guideratedeclination"
      [("GuideRateDeclination", None)];
    mk_accessor (Only Telescope) "GuideRateRightAscension" Property Read "guideraterightascension"
      [];
    mk_accessor (Only Telescope) "GuideRateRightAscension" PropertySetter Write "guideraterightascension"
      [("GuideRateRightAscension", None)];
    mk_accessor (Only Telescope) "IsPulseGuiding" Property Read "ispulseguiding"
      [];
    mk_accessor (Only Telescope) "RightAscension" Property Read "rightascension"
      [];
    mk_accessor (Only Telescope) "RightAscensionRate" Property Read "rightascensionrate"
      [];
    mk_accessor (Only Telescope) "RightAscensionRate" PropertySetter Write "rightascensionrate"
      [("RightAscensionRate", None)];
    mk_accessor (Only Telescope) "SideOfPier" Property Read "sideofpier" [];
    mk_accessor (Only Telescope) "SideOfPier" PropertySetter Write "sideofpier"
      [("SideOfPier", None)];
    mk_accessor (Only Telescope) "SiderealTime" Property Read "siderealtime"
      [];
    mk_accessor (Only Telescope) "SiteElevation" Property Read "siteelevation"
      [];
    mk_accessor (Only Telescope) "SiteElevation" PropertySetter Write "siteelevation"
      [("SiteElevation", None)];
    mk_accessor (Only Telescope) "SiteLatitude" Property Read "sitelatitude"
      [];
    mk_accessor (Only Telescope) "SiteLatitude" PropertySetter Write "sitelatitude"
      [("SiteLatitude", None)];
    mk_accessor (Only Telescope) "SiteLongitude" Property Read "sitelongitude"
      [];
    mk_accessor (Only Telescope) "SiteLongitude" PropertySetter Write "sitelongitude"
      [("SiteLongitude", None)];
    mk_accessor (Only Telescope) "Slewing" Property Read "slewing" [];
    mk_accessor (Only Telescope) "SlewSettleTime" Property Read "slewsettletime"
      [];
    mk_accessor (Only Telescope) "SlewSettleTime" PropertySetter Write "slewsettletime"
      [("SlewSettleTime", None)];
    mk_accessor (Only Telescope) "TargetDeclination" Property Read "targetdeclination"
      [];
    mk_accessor (Only Telescope) "TargetDeclination" PropertySetter Write "targetdeclination"
      [("TargetDeclination", None)];
    mk_accessor (Only Telescope) "TargetRightAscension" Property Read "targetrightascension"
      [];
    mk_accessor (Only Telescope) "TargetRightAscension" PropertySetter Write "targetrightascension"
      [("TargetRightAscension", (Some PNone))];
    mk_accessor (Only Telescope) "Tracking" Property Read "tracking" [];
    mk_accessor (Only Telescope) "Tracking" PropertySetter Write "tracking"
      [("Tracking", None)];
    mk_accessor (Only Telescope) "TrackingRate" Property Read "trackingrate"
      [];
    mk_accessor (Only Telescope) "TrackingRate" PropertySetter Write "trackingrate"
      [("TrackingRate", None)];
    mk_accessor (Only Telescope) "TrackingRates" Property Read "trackingrates"
      [];
    mk_accessor (Only Telescope) "AbortSlew" Plain Write "abortslew" [];
    mk_accessor (Only Telescope) "AxisRates" Plain Read "axisrates"
      [("Axis", None)];
    mk_accessor (Only Telescope) "CanMoveAxis" Plain Read "canmoveaxis"
      [("Axis", None)];
    mk_accessor (Only Telescope) "DestinationSideOfPier" Plain Read "destinationsideofpier"
      [("RightAscension", None); ("Declination", None)];
    mk_accessor (Only Telescope) "FindHome" Plain Write "findhome" [];
    mk_accessor (Only Telescope) "MoveAxis" Plain Write "moveaxis"
      [("Axis", None); ("Rate", None)];
    mk_accessor (Only Telescope) "Park" Plain Write "park" [];
    mk_accessor (Only Telescope) "PulseGuide" Plain Write "pulseguide"
      [("Direction", None); ("Duration", None)];
    mk_accessor (Only Telescope) "SetPark" Plain Write "setpark" [];
    mk_accessor (Only Telescope) "SlewToAltAz" Plain Write "slewtoaltaz"
      [("Azimuth", None); ("Altitude", None)];
    mk_accessor (Only Telescope) "SlewToAltAzAsync" Plain Write "slewtoaltazasync"
      [("Azimuth", None); ("Altitude", None)];
    mk_accessor (Only Telescope) "SlewToCoordinates" Plain Write "slewtocoordinates"
      [("RightAscension", None); ("Declination", None)];
    mk_accessor (Only Telescope) "SlewToCoordinatesAsync" Plain Write "slewtocoordinatesasync"
      [("RightAscension", None); ("Declination", None)];
    mk_accessor (Only Telescope) "SlewToTarget" Plain Write "slewtotarget" [];
    mk_accessor (Only Telescope) "SlewToTargetAsync" Plain Write "slewtotargetasync"
      [];
    mk_accessor (Only Telescope) "SyncToAltAz" Plain Write "synctoaltaz"
      [("Azimuth", None); ("Altitude", None)];
    mk_accessor (Only Telescope) "SyncToCoordinates" Plain Write "synctocoordinates"
      [("RightAscension", None); ("Declination", None)];
    mk_accessor (Only Telescope) "SyncToTarget" Plain Write "synctotarget" [];
    mk_accessor (Only Telescope) "Unpark" Plain Write "unpark" [];
    mk_accessor (Only Rotator) "CanReverse" Property Read "canreverse" [];
    mk_accessor (Only Rotator) "IsMoving" Property Read "ismoving" [];
    mk_accessor (Only Rotator) "Position" Property Read "position" [];
    mk_accessor (Only Rotator) "Reverse" Property Read "reverse" [];
    mk_accessor (Only Rotator) "Reverse" PropertySetter Write "reverse"
      [("Reverse", None)];
    mk_accessor (Only Rotator) "StepSize" Property Read "stepsize" [];
    mk_accessor (Only Rotator) "TargetPosition" Property Read "targetposition"
      [];
    mk_accessor (Only Rotator) "Halt" Plain Write "halt" [];
    mk_accessor (Only Rotator) "Move" Plain Write "move" [("Position", None)];
    mk_accessor (Only Rotator) "MoveAbsolute" Plain Write "moveabsolute"
      [("Position", None)];
    mk_accessor (Only Focuser) "Absolute" Property Read "absolute" [];
    mk_accessor (Only Focuser) "IsMoving" Property Read "ismoving" [];
    mk_accessor (Only Focuser) "MaxIncrement" Property Read "maxincrement" [];
    mk_accessor (Only Focuser) "MaxStep" Property Read "maxstep" [];
    mk_accessor (Only Focuser) "Position" Property Read "position" [];
    mk_accessor (Only Focuser) "StepSize" Property Read "stepsize" [];
    mk_accessor (Only Focuser) "TempComp" Property Read "tempcomp" [];
    mk_accessor (Only Focuser) "TempComp" PropertySetter Write "tempcomp"
      [("TempComp", None)];
    mk_accessor (Only Focuser) "TempCompAvailable" Property Read "tempcompavailable"
      [];
    mk_accessor (Only Focuser) "Temperature" Property Read "temperature" [];
    mk_accessor (Only Focuser) "Halt" Plain Write "halt" [];
    mk_accessor (Only Focuser) "Move" Plain Write "move" [("Position", None)]
  ].

(** [s.lower()] for the letters A to Z. *)
Definition lower_char (c : ascii) : ascii :=
  let n := nat_of_ascii c in
  if ((65 <=? n) && (n <=? 90))%nat then ascii_of_nat (n + 32) else c.

Fixpoint lower (s : string) : string :=
  match s with
  | EmptyString => EmptyString
  | String c s' => String (lower_char c) (lower s')
  end.

(** Two accessors that one object can have: of the same class, or one of
    them of [Device]. *)
Definition together (a b : Accessor) : bool :=
  match owner a, owner b with
  | AnyDevice, _ => true
  | _, AnyDevice => true
  | Only c, Only c' =>
      String.eqb (class_name c) (class_name c')
  end.

Definition same_kind (a b : Accessor) : bool :=
  match kind a, kind b with
  | Read, Read => true
  | Write, Write => true
  | _, _ => false
  end.

Definition same_owner (a b : Accessor) : bool :=
  match owner a, owner b with
  | AnyDevice, AnyDevice => true
  | Only c, Only c' => String.eqb (class_name c) (class_name c')
  | _, _ => false
  end.

(** Checks on one accessor or on a pair of them, run over [accessors]. *)

Definition named_after_itself (a : Accessor) : bool :=
  String.eqb (wire a) (lower (py_name a)).

Definition is_description (a : Accessor) : bool :=
  match owner a with
  | AnyDevice =>
      String.eqb (py_name a) "Description" && String.eqb (wire a) "name"
  | Only _ => false
  end.

Definition distinct_endpoints (a b : Accessor) : bool :=
  implb (together a b && same_kind a b && String.eqb (wire a) (wire b))
        (String.eqb (py_name a) (py_name b) || String.eqb (wire a) "name").

Definition is_getter_of (a g : Accessor) : bool :=
  match form g, kind g, parameters g with
  | Property, Read, [] =>
      same_owner a g && String.eqb (py_name g) (py_name a)
      && String.eqb (wire g) (wire a)
  | _, _, _ => false
  end.

Definition setter_shape (a : Accessor) : bool :=
  match form a with
  | PropertySetter =>
      match kind a, parameters a with
      | Write, [(key, _)] =>
          String.eqb key (py_name a) && existsb (is_getter_of a) accessors
      | _, _ => false
      end
  | _ => true
  end.

Definition channel_default (a : Accessor) : bool :=
  match owner a, kind a, parameters a with
  | Only Switch, Read, [] => true
  | Only Switch, Read, [(key, Some (PInt 0))] => String.eqb key "Id"
  | Only Switch, Read, _ => false
  | _, _, _ => true
  end.

(** The method of the request an accessor issues. *)
Definition method_of (k : Kind) : Method :=
  match k with
  | Read => GET
  | Write => PUT
  end.

(** * Properties *)

Lemma append_empty_r (s : string) : s ++ EmptyString = s.
Proof.
  induction s as [| c s IH]; simpl; [reflexivity | now rewrite IH].
Qed.

Lemma append_cancel_l (a x y : string) : a ++ x = a ++ y -> x = y.
Proof.
  induction a as [| c a IH]; simpl; [trivial |].
  intros E. injection E as E. auto.
Qed.

Lemma format_url `{Runtime} (base attribute : string) :
  py_format "%s/%s" [PStr base; PStr attribute]
    = Ok (base ++ "/" ++ attribute).
Proof.
  cbn. now rewrite append_empty_r.
Qed.

(** *** The decimal rendering of an integer *)

Lemma to_int_proper (z : Z) : Z.to_int z <> Pos Nil /\ Z.to_int z <> Neg Nil.
Proof.
  destruct z as [| p | p]; simpl; split; try discriminate;
    intros E; injection E; apply Unsigned.to_uint_nonnil.
Qed.

Lemma decimal_inj (n n' : Z) : decimal n = decimal n' -> n = n'.
Proof.
  unfold decimal. intros E. apply DecimalZ.to_int_inj.
  apply (f_equal NilZero.int_of_string) in E.
  destruct (to_int_proper n) as [P N], (to_int_proper n') as [P' N'].
  rewrite !NilZero.isi in E by assumption. now injection E.
Qed.

Lemma rendering_uint (d : uint) : rendering (NilEmpty.string_of_uint d) = true.
Proof.
  induction d; simpl; auto.
Qed.

Lemma rendering_decimal (z : Z) : rendering (decimal z) = true.
Proof.
  unfold decimal, NilZero.string_of_int, NilZero.string_of_uint.
  destruct (Z.to_int z) as [d | d]; destruct d; simpl;
    auto using rendering_uint.
Qed.

(** A rendering ends where the first colon stands. *)
Lemma cut_at_colon (a b x y : string) :
  rendering a = true -> rendering b = true ->
  a ++ String ":" x = b ++ String ":" y -> a = b /\ x = y.
Proof.
  revert b. induction a as [| c a IH]; intros [| c' b]; simpl.
  - intros _ _ E. injection E as E. now split.
  - intros _ R E. injection E as E _. subst c'. discriminate.
  - intros R _ E. injection E as E _. subst c. discriminate.
  - intros R R' E. injection E as Ec E.
    apply andb_prop in R as [_ R]. apply andb_prop in R' as [_ R'].
    destruct (IH b R R' E) as [-> ->]. now subst.
Qed.

(** [_get] is one round trip followed by the pure decoding of the
    response; an exception of the transport leaves the request in the
    log. *)
Lemma get_run `{Runtime} (self : Device.t) attribute data (log : Log) :
  Device._get self attribute data log =
    (rbind (exchange (List.length log) (get_request self attribute data))
           get_outcome,
     (log ++ [get_request self attribute data])%list).
Proof.
  unfold Device._get, bind, lift, requests_get, send, get_outcome,
    get_request.
  rewrite format_url.
  destruct (exchange _ _) as [response | e]; simpl; [| reflexivity].
  destruct (Device.__check_error response) as [[] | e]; simpl;
    [| reflexivity].
  destruct (Response_json response); reflexivity.
Qed.

Lemma put_run `{Runtime} (self : Device.t) attribute data (log : Log) :
  Device._put self attribute data log =
    (rbind (exchange (List.length log) (put_request self attribute data))
           put_outcome,
     (log ++ [put_request self attribute data])%list).
Proof.
  unfold Device._put, bind, lift, requests_put, send, put_outcome,
    put_request.
  rewrite format_url.
  destruct (exchange _ _) as [response | e]; simpl; [| reflexivity].
  destruct (Device.__check_error response) as [[] | e]; reflexivity.
Qed.

(** The three branches of the classification. *)
Lemma check_error_transport `{Runtime} (response : Response) :
  status_code response = 400 \/ status_code response = 500 ->
  Device.__check_error response = Raise (ErrorMessage (text response)).
Proof.
  intros [E | E]; unfold Device.__check_error; rewrite E; reflexivity.
Qed.

Lemma check_error_success `{Runtime} (response : Response) :
  status_code response = 200 ->
  Device.__check_error response =
    (j <~ Response_json response ;;
     n <~ getitem j "ErrorNumber" ;;
     if ne_zero n then
       m <~ getitem j "ErrorMessage" ;;
       e <~ NumericError.__init__ n m ;;
       Raise e
     else Ok tt).
Proof.
  intros E. unfold Device.__check_error. rewrite E. simpl.
  destruct (Response_json response) as [j | e]; simpl; [| reflexivity].
  destruct (getitem j "ErrorNumber") as [n | e]; reflexivity.
Qed.

Lemma check_error_other `{Runtime} (response : Response) :
  status_code response <> 200 ->
  status_code response <> 400 ->
  status_code response <> 500 ->
  Device.__check_error response = Ok tt.
Proof.
  intros E2 E4 E5. unfold Device.__check_error.
  apply Z.eqb_neq in E2, E4, E5. now rewrite E2, E4, E5.
Qed.

Lemma Device_init_ok `{Runtime} address device_type device_number protocall
  api_version :
  Device.__init__ address device_type device_number protocall api_version
  = Ok (Device.mk address device_type device_number api_version
          (protocall ++ "://" ++ address ++ "/api/v"
             ++ decimal api_version ++ "/" ++ device_type ++ "/"
             ++ decimal device_number)).
Proof.
  unfold Device.__init__. cbn. now rewrite append_empty_r.
Qed.

(** C1.  The object built by [Device.__init__] from an address, a device
    type, a device number, a scheme and an API version has the base URL
    [<scheme>://<address>/api/v<version>/<type>/<number>], the two
    numbers in decimal, and nothing else; so has the instance of each
    device class, for the device type of the class. *)
Theorem base_url_exact `{Runtime} :
  forall address device_type device_number protocall api_version,
    (exists self,
        Device.__init__ address device_type device_number protocall
          api_version = Ok self /\
        Device.base_url self =
          protocall ++ "://" ++ address ++ "/api/v" ++ decimal api_version
            ++ "/" ++ device_type ++ "/" ++ decimal device_number) /\
    (forall c, exists self,
        class_init c address device_number (Some protocall)
          (Some api_version) = Ok self /\
        Device.base_url self =
          protocall ++ "://" ++ address ++ "/api/v" ++ decimal api_version
            ++ "/" ++ device_type_of c ++ "/" ++ decimal device_number).
Proof.
  intros. split; [| intros c; unfold class_init];
    (eexists; split; [apply Device_init_ok | reflexivity]).
Qed.

(** C2.  When the server answers a read or a write with status 400 or
    500, the operation raises [ErrorMessage], whose only attribute is the
    message, and the message is the text of the response. *)
Theorem transport_failure_carries_body `{Runtime} :
  forall self attribute data log response,
    status_code response = 400 \/ status_code response = 500 ->
    (exchange (List.length log) (get_request self attribute data)
       = Ok response ->
     Device._get self attribute data log =
       (Raise (ErrorMessage (text response)),
        (log ++ [get_request self attribute data])%list)) /\
    (exchange (List.length log) (put_request self attribute data)
       = Ok response ->
     Device._put self attribute data log =
       (Raise (ErrorMessage (text response)),
        (log ++ [put_request self attribute data])%list)) /\
    message_of (ErrorMessage (text response)) = Some (text response).
Proof.
  intros self attribute data log response St.
  repeat split.
  - intros E. rewrite get_run, E. unfold get_outcome. simpl.
    now rewrite (check_error_transport _ St).
  - intros E. rewrite put_run, E. unfold put_outcome. simpl.
    now rewrite (check_error_transport _ St).
Qed.

(** The server answers every request with status 400 and the body
    [Bad parameter]: reading [connected] raises that text. *)
Lemma transport_failure_carries_body_witness :
  let rt := canned [mk_response 400 "Bad parameter"] [] in
  fst (Device.Connected telescope0 []) = Raise (ErrorMessage "Bad parameter").
Proof.
  intros rt.
  pose proof (@transport_failure_carries_body rt telescope0 "connected"
                [] [] (mk_response 400 "Bad parameter")
                (or_introl eq_refl)) as [G _].
  unfold Device.Connected. rewrite (G eq_refl). reflexivity.
Defined.

(** C4.  When the server answers a read with status 200 and an
    [ErrorNumber] equal to 0, [_get] returns what the decoded body holds
    under [Value], as it is. *)
Theorem read_returns_value `{Runtime} :
  forall self attribute data log response j n,
    exchange (List.length log) (get_request self attribute data)
      = Ok response ->
    status_code response = 200 ->
    json_loads (text response) = Some j ->
    getitem j "ErrorNumber" = Ok n ->
    ne_zero n = false ->
    Device._get self attribute data log =
      (getitem j "Value", (log ++ [get_request self attribute data])%list).
Proof.
  intros self attribute data log response j n E St J N Z0.
  rewrite get_run, E. unfold get_outcome. simpl.
  rewrite (check_error_success _ St).
  unfold Response_json. rewrite J. simpl. rewrite N. simpl.
  rewrite Z0. simpl. destruct (getitem j "Value"); reflexivity.
Qed.

(** The right ascension of the telescope: the server sends 12.5 and the
    accessor returns 12.5. *)
Lemma read_returns_value_witness :
  let rt := canned [mk_response 200 "right-ascension"] bodies in
  Telescope.RightAscension telescope0 [] =
    (Ok (PFloat (S754_finite false 25 (-1))),
     [get_request telescope0 "rightascension" []]).
Proof.
  intros rt.
  exact (@read_returns_value rt telescope0 "rightascension" [] []
           (mk_response 200 "right-ascension") right_ascension (PInt 0)
           eq_refl eq_refl eq_refl eq_refl eq_refl).
Defined.

(** C5.  The classification raises [ErrorMessage] for the statuses 400 and
    500 and inspects the body for the status 200 only.  For every other
    status it returns normally: a read then yields the [Value] of the
    decoded body and a write the decoded body, whatever [ErrorNumber]
    says. *)
Theorem other_status_is_success `{Runtime} :
  forall self attribute data log response,
    status_code response <> 200 ->
    status_code response <> 400 ->
    status_code response <> 500 ->
    Device.__check_error response = Ok tt /\
    (exchange (List.length log) (get_request self attribute data)
       = Ok response ->
     Device._get self attribute data log =
       (j <~ Response_json response ;; getitem j "Value",
        (log ++ [get_request self attribute data])%list)) /\
    (exchange (List.length log) (put_request self attribute data)
       = Ok response ->
     Device._put self attribute data log =
       (Response_json response,
        (log ++ [put_request self attribute data])%list)).
Proof.
  intros self attribute data log response E2 E4 E5.
  pose proof (check_error_other _ E2 E4 E5) as C.
  repeat split.
  - exact C.
  - intros E. rewrite get_run, E. unfold get_outcome. simpl.
    now rewrite C.
  - intros E. rewrite put_run, E. unfold put_outcome. simpl.
    now rewrite C.
Qed.

(** The server answers [setswitch] with status 404 and a body whose
    [ErrorNumber] is 1025: the write returns normally. *)
Lemma other_status_is_success_witness :
  let rt := canned [mk_response 404 "invalid-switch-id"] bodies in
  Switch.SetSwitch switch0 0 true [] =
    (Ok tt,
     [put_request switch0 "setswitch"
        [("Id", PInt 0); ("State", PBool true)]]).
Proof.
  intros rt.
  pose proof (@other_status_is_success rt switch0 "setswitch"
                [("Id", PInt 0); ("State", PBool true)] []
                (mk_response 404 "invalid-switch-id")) as P.
  destruct P as (_ & _ & G); [simpl; lia | simpl; lia | simpl; lia |].
  unfold Switch.SetSwitch, bind. rewrite (G eq_refl). reflexivity.
Defined.

(** C3, amended.  When the server answers a read or a write with status
    200 and the decoded body holds a non-zero integer under [ErrorNumber]
    and a string under [ErrorMessage], the operation raises
    [NumericError]; the exception has the single attribute [message],
    which is [Error <number>: <message>] with the number in decimal, and
    from which the number and the message of the server can be read
    back. *)
Theorem numeric_failure_message `{Runtime} :
  forall self attribute data log response j n m,
    status_code response = 200 ->
    json_loads (text response) = Some j ->
    getitem j "ErrorNumber" = Ok (PInt n) ->
    n <> 0 ->
    getitem j "ErrorMessage" = Ok (PStr m) ->
    (exchange (List.length log) (get_request self attribute data)
       = Ok response ->
     Device._get self attribute data log =
       (Raise (NumericError ("Error " ++ decimal n ++ ": " ++ m)),
        (log ++ [get_request self attribute data])%list)) /\
    (exchange (List.length log) (put_request self attribute data)
       = Ok response ->
     Device._put self attribute data log =
       (Raise (NumericError ("Error " ++ decimal n ++ ": " ++ m)),
        (log ++ [put_request self attribute data])%list)) /\
    (forall n' m',
        "Error " ++ decimal n' ++ ": " ++ m' =
        "Error " ++ decimal n ++ ": " ++ m ->
        n' = n /\ m' = m).
Proof.
  intros self attribute data log response j n m St J N Nz Msg.
  assert (C : Device.__check_error response =
              Raise (NumericError ("Error " ++ decimal n ++ ": " ++ m))).
  { rewrite (check_error_success _ St).
    unfold Response_json. rewrite J. simpl. rewrite N. simpl.
    apply Z.eqb_neq in Nz. rewrite Nz. simpl. rewrite Msg. simpl.
    unfold NumericError.__init__. cbn. now rewrite append_empty_r. }
  split; [| split].
  - intros E. rewrite get_run, E. unfold get_outcome. simpl. now rewrite C.
  - intros E. rewrite put_run, E. unfold put_outcome. simpl. now rewrite C.
  - intros n' m' E. apply (append_cancel_l "Error ") in E.
    apply cut_at_colon in E; auto using rendering_decimal.
    destruct E as [D E]. injection E as E.
    split; [now apply decimal_inj | exact E].
Qed.

(** The server answers [setswitch] with status 200, [ErrorNumber] 1025 and
    [ErrorMessage] [Invalid switch id]. *)
Lemma numeric_failure_message_witness :
  let rt := canned [mk_response 200 "invalid-switch-id"] bodies in
  Switch.SetSwitch switch0 0 true [] =
    (Raise (NumericError "Error 1025: Invalid switch id"),
     [put_request switch0 "setswitch"
        [("Id", PInt 0); ("State", PBool true)]]).
Proof.
  intros rt.
  pose proof (@numeric_failure_message rt switch0 "setswitch"
                [("Id", PInt 0); ("State", PBool true)] []
                (mk_response 200 "invalid-switch-id") invalid_switch_id
                1025 "Invalid switch id" eq_refl eq_refl eq_refl) as P.
  destruct P as (_ & G & _); [lia | reflexivity |].
  unfold Switch.SetSwitch, bind. rewrite (G eq_refl). reflexivity.
Defined.

(** C3 as stated fails: in that exchange the message of the exception
    raised is not the [ErrorMessage] of the server. *)
Lemma numeric_failure_not_verbatim :
  let rt := canned [mk_response 200 "invalid-switch-id"] bodies in
  status_code (mk_response 200 "invalid-switch-id") = 200 /\
  Response_json (mk_response 200 "invalid-switch-id")
    = Ok invalid_switch_id /\
  exists e,
    fst (Switch.SetSwitch switch0 0 true []) = Raise e /\
    message_of e = Some "Error 1025: Invalid switch id" /\
    message_of e <> Some "Invalid switch id".
Proof.
  intros rt. split; [reflexivity |]. split; [reflexivity |].
  exists (NumericError "Error 1025: Invalid switch id").
  split; [reflexivity |]. split; [reflexivity |]. discriminate.
Qed.

(** *** Splitting a descriptor *)

Lemma split_nonempty (s : string) : split "/" s <> [].
Proof.
  destruct s as [| c s]; simpl; [discriminate |].
  destruct (Ascii.eqb c "/"); [discriminate |].
  destruct (split "/" s); discriminate.
Qed.

Lemma split_no_slash (s : string) :
  no_slash s = true -> split "/" s = [s].
Proof.
  induction s as [| c s IH]; simpl; [reflexivity |].
  intros N. apply andb_prop in N as [Nc Ns].
  apply negb_true_iff in Nc. rewrite Nc, (IH Ns). reflexivity.
Qed.

Lemma split_app (a b : string) :
  no_slash a = true ->
  split "/" (a ++ String "/" b) = a :: split "/" b.
Proof.
  induction a as [| c a IH]; simpl; [reflexivity |].
  intros N. apply andb_prop in N as [Nc Na].
  apply negb_true_iff in Nc. rewrite Nc, (IH Na). reflexivity.
Qed.

Lemma space_not_slash (c : ascii) :
  is_space c = true -> Ascii.eqb c "/" = false.
Proof.
  destruct (Ascii.eqb_spec c "/") as [-> | _]; [discriminate | reflexivity].
Qed.

Lemma digit_not_slash (c : ascii) :
  is_digit c = true -> Ascii.eqb c "/" = false.
Proof.
  destruct (Ascii.eqb_spec c "/") as [-> | _]; [discriminate | reflexivity].
Qed.

Lemma digits_no_slash (s : string) :
  forall acc b z, digits s acc b = Some z -> no_slash s = true.
Proof.
  induction s as [| c s IH]; simpl; [reflexivity |].
  intros acc b z D.
  destruct (is_digit c) eqn:Dc.
  - rewrite (digit_not_slash _ Dc). simpl. eauto.
  - destruct (Ascii.eqb_spec c "_") as [-> | _]; [| discriminate].
    destruct b; [| discriminate]. simpl. eauto.
Qed.

Lemma lstrip_no_slash (s : string) :
  no_slash (lstrip s) = true -> no_slash s = true.
Proof.
  induction s as [| c s IH]; simpl; [reflexivity |].
  destruct (is_space c) eqn:Sc; [| trivial].
  intros N. rewrite (space_not_slash _ Sc). simpl. auto.
Qed.

Lemma rstrip_no_slash (s : string) :
  no_slash (rstrip s) = true -> no_slash s = true.
Proof.
  induction s as [| c s IH]; simpl; [reflexivity |].
  destruct (rstrip s) as [| c' r] eqn:R.
  - destruct (is_space c) eqn:Sc; simpl.
    + intros _. rewrite (space_not_slash _ Sc). simpl. auto.
    + intros N. apply andb_prop in N as [Nc _]. rewrite Nc. simpl. auto.
  - intros N. simpl in N. apply andb_prop in N as [Nc N].
    rewrite Nc. simpl. apply IH. exact N.
Qed.

Lemma py_int_no_slash (s : string) (z : Z) :
  py_int s = Some z -> no_slash s = true.
Proof.
  unfold py_int. intros P.
  apply lstrip_no_slash, rstrip_no_slash.
  destruct (rstrip (lstrip s)) as [| c body]; [discriminate |].
  destruct (Ascii.eqb_spec c "-") as [-> | _].
  { destruct (digits body 0 false) eqn:D; [| discriminate].
    simpl. eapply digits_no_slash, D. }
  destruct (Ascii.eqb_spec c "+") as [-> | _].
  { simpl. eapply digits_no_slash, P. }
  eapply digits_no_slash, P.
Qed.

Lemma class_name_no_slash (c : DeviceClass) : no_slash (class_name c) = true.
Proof. destruct c; reflexivity. Qed.

Lemma class_name_global (c : DeviceClass) :
  globals_get module_globals (class_name c) = Some (GClass c).
Proof. destruct c; reflexivity. Qed.

Lemma CreateClient_unfold `{Runtime} (name : string) :
  CreateClient name =
    (devname <~ convert_all
                  (combine [conv_str; conv_str; conv_int]
                           (split "/" name)) ;;
     match devname with
     | PStr d0 :: args =>
         match globals_get module_globals d0 with
         | Some g => call (CreateClient_rec (pred recursion_limit)) g args
         | None => Raise (KeyError (PStr d0))
         end
     | d0 :: _ => Raise (KeyError d0)
     | [] => Raise IndexError
     end).
Proof. reflexivity. Qed.

Lemma split_parts (s : string) :
  Forall (fun p => no_slash p = true) (split "/" s).
Proof.
  induction s as [| c s IH]; simpl; [now constructor |].
  destruct (Ascii.eqb c "/") eqn:Ec; [now constructor |].
  destruct (split "/" s) as [| p ps]; [now constructor; simpl; rewrite ?Ec |].
  inversion IH as [| ? ? Hp Hps]; subst.
  constructor; [simpl; now rewrite Ec, Hp | exact Hps].
Qed.

(** The factory calls itself on a name that holds no [/], and that call
    goes no deeper: two levels are all the recursion there is, and
    [RecursionError] is never raised. *)
Lemma CreateClient_leaf `{Runtime} (d : nat) (name : string) :
  no_slash name = true ->
  CreateClient_rec (S d) name = CreateClient_rec 1 name.
Proof.
  intros N. cbn [CreateClient_rec]. rewrite (split_no_slash _ N).
  cbn [combine convert_all convert rbind].
  destruct (globals_get module_globals name) as [[] |]; reflexivity.
Qed.

Lemma CreateClient_depth `{Runtime} (d : nat) (name : string) :
  CreateClient_rec (S (S d)) name = CreateClient_rec 2 name.
Proof.
  change (CreateClient_rec (S (S d)) name) with
    (devname <~ convert_all
                  (combine [conv_str; conv_str; conv_int] (split "/" name)) ;;
     match devname with
     | PStr d0 :: args =>
         match globals_get module_globals d0 with
         | Some g => call (CreateClient_rec (S d)) g args
         | None => Raise (KeyError (PStr d0))
         end
     | d0 :: _ => Raise (KeyError d0)
     | [] => Raise IndexError
     end).
  change (CreateClient_rec 2 name) with
    (devname <~ convert_all
                  (combine [conv_str; conv_str; conv_int] (split "/" name)) ;;
     match devname with
     | PStr d0 :: args =>
         match globals_get module_globals d0 with
         | Some g => call (CreateClient_rec 1) g args
         | None => Raise (KeyError (PStr d0))
         end
     | d0 :: _ => Raise (KeyError d0)
     | [] => Raise IndexError
     end).
  pose proof (split_parts name) as P.
  destruct (split "/" name) as [| p0 [| p1 [| p2 rest]]];
    cbn [combine convert_all convert rbind].
  - reflexivity.
  - destruct (globals_get module_globals p0) as [[] |]; reflexivity.
  - inversion P as [| ? ? _ P1]; inversion P1 as [| ? ? N1 _]; subst.
    destruct (globals_get module_globals p0) as [[] |]; try reflexivity.
    cbn [call]. now rewrite (CreateClient_leaf d _ N1).
  - destruct (py_int p2); cbn [rbind]; [| reflexivity].
    destruct (globals_get module_globals p0) as [[] |]; reflexivity.
Qed.

Lemma CreateClient_two_levels `{Runtime} (name : string) :
  CreateClient name = CreateClient_rec 2 name.
Proof.
  exact (CreateClient_depth (pred (pred recursion_limit)) name).
Qed.

(** C6, amended.  The first component of the descriptor is looked up
    among the names of the module, where the device classes are bound to
    their class names.  A descriptor [Class/address/number], with no [/]
    in the address and a number that [int] accepts, yields an instance of
    that class for the scheme [http] and the API version 1.  A descriptor
    whose third component [int] does not accept raises [ValueError],
    whatever its first component, the name of a device class included.
    A descriptor whose first component is not a name of the module, and
    whose third component is missing or accepted by [int], raises
    [KeyError] for that first component.  And [Telescope/10.0.0.5/0]
    yields a telescope whose base URL is
    [http://10.0.0.5/api/v1/telescope/0]. *)
Theorem factory_by_class_name `{Runtime} :
  (forall c address number n,
      no_slash address = true ->
      py_int number = Some n ->
      CreateClient (class_name c ++ "/" ++ address ++ "/" ++ number) =
        Ok (Instance c
              (Device.mk address (device_type_of c) n 1
                 ("http://" ++ address ++ "/api/v1/" ++ device_type_of c
                    ++ "/" ++ decimal n)))) /\
  (forall name number,
      nth_error (split "/" name) 2 = Some number ->
      py_int number = None ->
      CreateClient name = Raise ValueError) /\
  (forall c address number,
      no_slash address = true ->
      no_slash number = true ->
      py_int number = None ->
      CreateClient (class_name c ++ "/" ++ address ++ "/" ++ number)
        = Raise ValueError) /\
  (forall name,
      globals_get module_globals (hd EmptyString (split "/" name)) = None ->
      (forall number,
          nth_error (split "/" name) 2 = Some number ->
          py_int number <> None) ->
      CreateClient name
        = Raise (KeyError (PStr (hd EmptyString (split "/" name))))) /\
  CreateClient "Telescope/10.0.0.5/0" = Ok (Instance Telescope telescope0).
Proof.
  assert (V : forall name number,
             nth_error (split "/" name) 2 = Some number ->
             py_int number = None ->
             CreateClient name = Raise ValueError).
  { intros name number N P. rewrite CreateClient_unfold.
    generalize (CreateClient_rec (pred recursion_limit)). intros self_call.
    destruct (split "/" name) as [| p0 [| p1 [| p2 rest]]];
      try discriminate.
    injection N as ->.
    cbn [combine convert_all convert rbind]. now rewrite P. }
  split; [| split; [| split; [| split]]].
  - intros c address number n Na Pn.
    rewrite CreateClient_unfold.
    generalize (CreateClient_rec (pred recursion_limit)). intros self_call.
    change (class_name c ++ "/" ++ address ++ "/" ++ number)
      with (class_name c ++ String "/" (address ++ String "/" number)).
    rewrite (split_app _ _ (class_name_no_slash c)), (split_app _ _ Na),
      (split_no_slash _ (py_int_no_slash _ _ Pn)).
    cbn [combine convert_all convert rbind]. rewrite Pn.
    cbn [rbind]. rewrite class_name_global.
    unfold call, class_init. rewrite Device_init_ok. reflexivity.
  - exact V.
  - intros c address number Na Nn Pn. apply (V _ number); [| exact Pn].
    change (class_name c ++ "/" ++ address ++ "/" ++ number)
      with (class_name c ++ String "/" (address ++ String "/" number)).
    now rewrite (split_app _ _ (class_name_no_slash c)), (split_app _ _ Na),
      (split_no_slash _ Nn).
  - intros name G A. rewrite CreateClient_unfold.
    generalize (CreateClient_rec (pred recursion_limit)). intros self_call.
    pose proof (split_nonempty name) as Ne.
    destruct (split "/" name) as [| p0 [| p1 [| p2 rest]]];
      [congruence | | |]; simpl in *.
    + now rewrite G.
    + now rewrite G.
    + destruct (py_int p2) eqn:P2; simpl; [now rewrite G |].
      now destruct (A p2 eq_refl).
  - vm_compute. reflexivity.
Qed.

(** A dome on port 11111; the same descriptor with the category in lower
    case; and descriptors whose third component is not a number, under
    a class name and under an unknown name. *)
Lemma factory_by_class_name_witness :
  let rt := canned [] [] in
  CreateClient "Dome/192.168.1.20:11111/2" =
    Ok (Instance Dome
          (Device.mk "192.168.1.20:11111" "dome" 2 1
             "http://192.168.1.20:11111/api/v1/dome/2")) /\
  CreateClient "dome/192.168.1.20:11111/2" = Raise (KeyError (PStr "dome")) /\
  CreateClient "Dome/192.168.1.20:11111/two" = Raise ValueError /\
  CreateClient "dome/192.168.1.20:11111/two/2" = Raise ValueError.
Proof.
  intros rt. destruct (@factory_by_class_name rt) as (F & V & W & U & _).
  split; [| split; [| split]].
  - exact (F Dome "192.168.1.20:11111" "2" 2 eq_refl eq_refl).
  - apply (U "dome/192.168.1.20:11111/2" eq_refl).
    intros number N. injection N as <-. discriminate.
  - exact (W Dome "192.168.1.20:11111" "two" eq_refl eq_refl eq_refl).
  - exact (V "dome/192.168.1.20:11111/two/2" "two" eq_refl eq_refl).
Defined.

(** C6 as stated fails: the descriptor [telescope/10.0.0.5/0] yields no
    telescope, it raises [KeyError]. *)
Lemma factory_rejects_lower_case :
  let rt := canned [] [] in
  CreateClient "telescope/10.0.0.5/0" = Raise (KeyError (PStr "telescope")).
Proof.
  intros rt. vm_compute. reflexivity.
Qed.

(** C7.  The [UTCDate] setter sends a [str] as it is and a [datetime] as
    its [isoformat()], which for 2024-01-01 00:00:00 is
    [2024-01-01T00:00:00]; for a value of any other type it raises
    [TypeError] and issues no request. *)
Theorem utcdate_setter_shapes `{Runtime} :
  forall self log,
    (forall s,
        snd (Telescope.UTCDate_setter self (PStr s) log) =
          (log ++ [mk_request PUT (Device.base_url self ++ "/utcdate") []
                     [("UTCDate", PStr s)]])%list) /\
    (forall dt,
        snd (Telescope.UTCDate_setter self (PDatetime dt) log) =
          (log ++ [mk_request PUT (Device.base_url self ++ "/utcdate") []
                     [("UTCDate", PStr (isoformat dt))]])%list) /\
    isoformat (mk_datetime 2024 1 1 0 0 0 0 None) = "2024-01-01T00:00:00" /\
    (forall v,
        (forall s, v <> PStr s) ->
        (forall dt, v <> PDatetime dt) ->
        Telescope.UTCDate_setter self v log = (Raise TypeError, log)).
Proof.
  intros self log. repeat split.
  - intros s. unfold Telescope.UTCDate_setter, bind at 1, lift at 1.
    unfold bind. rewrite put_run.
    destruct (rbind _ _); reflexivity.
  - intros dt. unfold Telescope.UTCDate_setter, bind at 1, lift at 1.
    unfold bind. rewrite put_run.
    destruct (rbind _ _); reflexivity.
  - intros v Ns Nd. unfold Telescope.UTCDate_setter, bind, lift.
    destruct v; try reflexivity.
    + now destruct (Ns s).
    + now destruct (Nd dt).
Qed.

(** An integer is neither a string nor a date: the setter raises and the
    log stays empty. *)
Lemma utcdate_setter_shapes_witness :
  let rt := canned [] [] in
  Telescope.UTCDate_setter telescope0 (PInt 20240101) [] = (Raise TypeError, []).
Proof.
  intros rt.
  destruct (@utcdate_setter_shapes rt telescope0 []) as (_ & _ & _ & T).
  apply T; discriminate.
Defined.

(** C8, amended.  A read issues one GET and a write one PUT to
    [<base>/<attribute>]; both hand the parameters to the [requests]
    library as [data], which goes into the body, and neither passes
    [params], so the URL of a read has no query string. *)
Theorem read_and_write_carry_data `{Runtime} :
  forall self attribute data log,
    snd (Device._get self attribute data log) =
      (log ++ [mk_request GET (Device.base_url self ++ "/" ++ attribute)
                 [] data])%list /\
    snd (Device._put self attribute data log) =
      (log ++ [mk_request PUT (Device.base_url self ++ "/" ++ attribute)
                 [] data])%list.
Proof.
  intros. rewrite get_run, put_run. split; reflexivity.
Qed.

(** C8 as stated fails: reading switch 0 sends [Id] as [data], and the
    request differs from the one that would carry [Id] in the query. *)
Lemma read_parameters_not_in_query :
  let rt := canned [mk_response 200 "right-ascension"] bodies in
  snd (Switch.GetSwitch switch0 0 []) =
    [mk_request GET "http://10.0.0.5/api/v1/switch/0/getswitch"
       [] [("Id", PInt 0)]] /\
  snd (Switch.GetSwitch switch0 0 []) <>
    [mk_request GET "http://10.0.0.5/api/v1/switch/0/getswitch"
       [("Id", PInt 0)] []].
Proof.
  intros rt. split; [reflexivity | discriminate].
Qed.

(** C9.  Two reads of the same attribute in a row, to which the server
    gives the same answer, return the same result. *)
Theorem repeated_read_same_value `{Runtime} :
  forall self attribute data log,
    exchange (List.length log) (get_request self attribute data) =
    exchange (S (List.length log)) (get_request self attribute data) ->
    fst (Device._get self attribute data log) =
    fst (Device._get self attribute data
           (snd (Device._get self attribute data log))).
Proof.
  intros self attribute data log E.
  rewrite !get_run. cbn [fst snd].
  rewrite length_app, Nat.add_1_r. cbn [List.length].
  now rewrite E.
Qed.

(** The server answers both reads of the right ascension with 12.5. *)
Lemma repeated_read_same_value_witness :
  let rt := canned [mk_response 200 "right-ascension";
                    mk_response 200 "right-ascension"] bodies in
  fst (Telescope.RightAscension telescope0 []) =
  fst (Telescope.RightAscension telescope0
         (snd (Telescope.RightAscension telescope0 []))).
Proof.
  intros rt.
  exact (@repeated_read_same_value rt telescope0 "rightascension" [] []
           eq_refl).
Defined.

(** C10.  [Description] and [Name] are the same computation: each issues
    one GET of [<base>/name] and returns what [_get] returns for it; the
    URL is never [<base>/description]. *)
Theorem description_is_name `{Runtime} :
  forall self log,
    Device.Description self log = Device.Name self log /\
    snd (Device.Description self log) =
      (log ++ [mk_request GET (Device.base_url self ++ "/name") [] []])%list /\
    Device.base_url self ++ "/name" <> Device.base_url self ++ "/description".
Proof.
  intros self log. repeat split.
  - unfold Device.Description. now rewrite get_run.
  - intros E. apply append_cancel_l in E. discriminate.
Qed.

(** * More of the request executor *)

Lemma get_raises `{Runtime} (self : Device.t) attribute data (log : Log)
  response e :
  exchange (List.length log) (get_request self attribute data) = Ok response ->
  Device.__check_error response = Raise e ->
  Device._get self attribute data log =
    (Raise e, (log ++ [get_request self attribute data])%list).
Proof.
  intros E C. rewrite get_run, E. unfold get_outcome. simpl. now rewrite C.
Qed.

Lemma put_raises `{Runtime} (self : Device.t) attribute data (log : Log)
  response e :
  exchange (List.length log) (put_request self attribute data) = Ok response ->
  Device.__check_error response = Raise e ->
  Device._put self attribute data log =
    (Raise e, (log ++ [put_request self attribute data])%list).
Proof.
  intros E C. rewrite put_run, E. unfold put_outcome. simpl. now rewrite C.
Qed.

Lemma put_passes `{Runtime} (self : Device.t) attribute data (log : Log)
  response :
  exchange (List.length log) (put_request self attribute data) = Ok response ->
  Device.__check_error response = Ok tt ->
  Device._put self attribute data log =
    (Response_json response,
     (log ++ [put_request self attribute data])%list).
Proof.
  intros E C. rewrite put_run, E. unfold put_outcome. simpl. now rewrite C.
Qed.

Lemma format_error `{Runtime} (n m : PyVal) :
  py_format "Error %d: %s" [n; m] =
    (x <~ format_d n ;; Ok ("Error " ++ x ++ ": " ++ py_str m)).
Proof.
  cbn. destruct (format_d n) as [x | e]; simpl; [| reflexivity].
  now rewrite append_empty_r.
Qed.

(** X1.  When the transport itself raises, a read and a write raise the
    same exception after that one attempt: the request is in the log once
    and the body is never looked at. *)
Theorem transport_exception_propagates `{Runtime} :
  forall self attribute data log e,
    (exchange (List.length log) (get_request self attribute data) = Raise e ->
     Device._get self attribute data log =
       (Raise e, (log ++ [get_request self attribute data])%list)) /\
    (exchange (List.length log) (put_request self attribute data) = Raise e ->
     Device._put self attribute data log =
       (Raise e, (log ++ [put_request self attribute data])%list)).
Proof.
  intros. split; intros E.
  - rewrite get_run, E. reflexivity.
  - rewrite put_run, E. reflexivity.
Qed.

(** The server gives no answer: the read raises what the transport
    raises. *)
Lemma transport_exception_propagates_witness :
  let rt := canned [] [] in
  Device.Connected telescope0 [] =
    (Raise RequestException, [get_request telescope0 "connected" []]).
Proof.
  intros rt.
  destruct (@transport_exception_propagates rt telescope0 "connected" [] []
              RequestException) as [G _].
  exact (G eq_refl).
Defined.

(** X2.  When the server answers a write with status 200 and an
    [ErrorNumber] equal to 0, [_put] returns the whole decoded body,
    whether or not it holds a [Value]. *)
Theorem write_returns_body `{Runtime} :
  forall self attribute data log response j n,
    exchange (List.length log) (put_request self attribute data)
      = Ok response ->
    status_code response = 200 ->
    json_loads (text response) = Some j ->
    getitem j "ErrorNumber" = Ok n ->
    ne_zero n = false ->
    Device._put self attribute data log =
      (Ok j, (log ++ [put_request self attribute data])%list).
Proof.
  intros self attribute data log response j n E St J N Z0.
  rewrite (put_passes _ _ _ _ _ E).
  - unfold Response_json. now rewrite J.
  - rewrite (check_error_success _ St). unfold Response_json.
    rewrite J. simpl. rewrite N. simpl. now rewrite Z0.
Qed.

Lemma write_returns_body_witness :
  let rt := canned [mk_response 200 "right-ascension"] bodies in
  Device._put switch0 "setswitch" [("Id", PInt 0); ("State", PBool true)] []
  = (Ok right_ascension,
     [put_request switch0 "setswitch"
        [("Id", PInt 0); ("State", PBool true)]]).
Proof.
  intros rt.
  exact (@write_returns_body rt switch0 "setswitch"
           [("Id", PInt 0); ("State", PBool true)] []
           (mk_response 200 "right-ascension") right_ascension (PInt 0)
           eq_refl eq_refl eq_refl eq_refl eq_refl).
Defined.

(** X3.  With status 200 the classification decodes the body first: a
    body that does not decode raises [JSONDecodeError], a decoded value
    that is not an object raises [TypeError], an object without
    [ErrorNumber] raises [KeyError] for that key, and an object with a
    non-zero [ErrorNumber] but without [ErrorMessage] raises [KeyError]
    for [ErrorMessage]; no [NumericError] is raised in these cases. *)
Theorem malformed_body_of_status_200 `{Runtime} :
  forall response,
    status_code response = 200 ->
    (json_loads (text response) = None ->
     Device.__check_error response = Raise JSONDecodeError) /\
    (forall j,
        json_loads (text response) = Some j ->
        (forall d, j <> PDict d) ->
        Device.__check_error response = Raise TypeError) /\
    (forall d,
        json_loads (text response) = Some (PDict d) ->
        dict_get d "ErrorNumber" = None ->
        Device.__check_error response
          = Raise (KeyError (PStr "ErrorNumber"))) /\
    (forall d n,
        json_loads (text response) = Some (PDict d) ->
        dict_get d "ErrorNumber" = Some n ->
        ne_zero n = true ->
        dict_get d "ErrorMessage" = None ->
        Device.__check_error response
          = Raise (KeyError (PStr "ErrorMessage"))).
Proof.
  intros response St. rewrite (check_error_success _ St).
  unfold Response_json. repeat split.
  - intros J. now rewrite J.
  - intros j J Nd. rewrite J. simpl.
    destruct j; try reflexivity. now destruct (Nd d).
  - intros d J N. rewrite J. simpl. now rewrite N.
  - intros d n J N Nz M. rewrite J. simpl. rewrite N. simpl.
    rewrite Nz. simpl. now rewrite M.
Qed.

(** A body that is a list, and a body with an error number and no
    message. *)
Lemma malformed_body_of_status_200_witness :
  let rt := canned []
              [("list", PList []);
               ("number-only", PDict [("ErrorNumber", PInt 1025)])] in
  Device.__check_error (mk_response 200 "list") = Raise TypeError /\
  Device.__check_error (mk_response 200 "number-only")
    = Raise (KeyError (PStr "ErrorMessage")) /\
  Device.__check_error (mk_response 200 "nothing") = Raise JSONDecodeError.
Proof.
  intros rt. split; [| split].
  - destruct (@malformed_body_of_status_200 rt (mk_response 200 "list")
                eq_refl) as (_ & T & _).
    apply (T (PList [])); [reflexivity | discriminate].
  - destruct (@malformed_body_of_status_200 rt
                (mk_response 200 "number-only") eq_refl) as (_ & _ & _ & K).
    apply (K [("ErrorNumber", PInt 1025)] (PInt 1025)); reflexivity.
  - destruct (@malformed_body_of_status_200 rt (mk_response 200 "nothing")
                eq_refl) as (J & _).
    apply J. reflexivity.
Defined.

(** X4.  With status 200, a non-zero [ErrorNumber] and an [ErrorMessage]
    of any types, the classification formats the number with [%d] and the
    message with [str]: it raises [NumericError] with the message
    [Error <number>: <str(message)>] when the number is an integer, a
    boolean or a finite float, and otherwise raises what [%d] raises
    ([TypeError] for a string, a null, a list or an object) and no
    [NumericError] at all. *)
Theorem numeric_failure_any_types `{Runtime} :
  forall response d n m,
    status_code response = 200 ->
    json_loads (text response) = Some (PDict d) ->
    dict_get d "ErrorNumber" = Some n ->
    ne_zero n = true ->
    dict_get d "ErrorMessage" = Some m ->
    Device.__check_error response =
      match format_d n with
      | Ok x => Raise (NumericError ("Error " ++ x ++ ": " ++ py_str m))
      | Raise e => Raise e
      end /\
    (forall e, format_d n = Raise e ->
       e = TypeError \/ e = OverflowError \/ e = ValueError) /\
    (forall s, format_d (PStr s) = Raise TypeError) /\
    format_d PNone = Raise TypeError /\
    (forall b, format_d (PBool b) = Ok (if b then "1" else "0")).
Proof.
  intros response d n m St J N Nz Msg. repeat split.
  - rewrite (check_error_success _ St). unfold Response_json.
    rewrite J. simpl. rewrite N. simpl. rewrite Nz. simpl. rewrite Msg.
    simpl. unfold NumericError.__init__. rewrite format_error.
    destruct (format_d n); reflexivity.
  - intros e F.
    destruct n as [| b | z | f | s | l | l | d' | dt]; simpl in F;
      try discriminate; try (injection F as <-; now auto).
    destruct f; simpl in F; try discriminate; injection F as <-; auto.
Qed.

(** The server sends the error number as the string [1025]. *)
Lemma numeric_failure_any_types_witness :
  let rt := canned []
              [("quoted", PDict [("ErrorNumber", PStr "1025");
                                 ("ErrorMessage", PStr "Invalid switch id")])] in
  Device.__check_error (mk_response 200 "quoted") = Raise TypeError.
Proof.
  intros rt.
  destruct (@numeric_failure_any_types rt (mk_response 200 "quoted")
              [("ErrorNumber", PStr "1025");
               ("ErrorMessage", PStr "Invalid switch id")]
              (PStr "1025") (PStr "Invalid switch id")
              eq_refl eq_refl eq_refl eq_refl eq_refl) as (C & _).
  exact C.
Defined.

(** X5.  The classification raises [ErrorMessage] for the statuses 400
    and 500 only, and then with the text of the response; it raises
    [NumericError] for the status 200 only. *)
Theorem classification_is_exclusive `{Runtime} :
  forall response m,
    (Device.__check_error response = Raise (ErrorMessage m) ->
     (status_code response = 400 \/ status_code response = 500) /\
     m = text response) /\
    (Device.__check_error response = Raise (NumericError m) ->
     status_code response = 200).
Proof.
  intros response m. unfold Device.__check_error.
  destruct (status_code response =? 400) eqn:E4;
    [apply Z.eqb_eq in E4 |];
    [simpl; split; intros C; [injection C as <-; auto | discriminate] |].
  destruct (status_code response =? 500) eqn:E5;
    [apply Z.eqb_eq in E5 |];
    [simpl; split; intros C; [injection C as <-; auto | discriminate] |].
  simpl.
  destruct (status_code response =? 200) eqn:E2;
    [apply Z.eqb_eq in E2 | split; discriminate].
  split; [| auto]. intros C. exfalso.
  unfold Response_json in C.
  destruct (json_loads (text response)) as [j |]; simpl in C;
    [| discriminate].
  destruct (getitem j "ErrorNumber") as [n | e] eqn:N; simpl in C.
  - destruct (ne_zero n); [| discriminate].
    destruct (getitem j "ErrorMessage") as [msg | e'] eqn:Mg; simpl in C.
    + unfold NumericError.__init__ in C. rewrite format_error in C.
      destruct (format_d n) as [x | e''] eqn:F; simpl in C;
        [discriminate |].
      destruct n as [| b | z | f | s | l | l | d' | dt]; simpl in F;
        try discriminate; try (injection F as <-; discriminate).
      destruct f; simpl in F; try discriminate;
        injection F as <-; discriminate.
    + destruct j; simpl in Mg; try (injection Mg as <-; discriminate).
      destruct (dict_get d "ErrorMessage"); [discriminate |].
      injection Mg as <-. discriminate.
  - destruct j; simpl in N; try (injection N as <-; discriminate).
    destruct (dict_get d "ErrorNumber"); [discriminate |].
    injection N as <-. discriminate.
Qed.

Lemma classification_is_exclusive_witness :
  let rt := canned [] [] in
  (status_code (mk_response 500 "Internal fault") = 400 \/
   status_code (mk_response 500 "Internal fault") = 500) /\
  "Internal fault" = text (mk_response 500 "Internal fault").
Proof.
  intros rt.
  destruct (@classification_is_exclusive rt (mk_response 500 "Internal fault")
              "Internal fault") as [G _].
  apply G. reflexivity.
Defined.

(** * The other methods of [Device] *)

Lemma get_passes `{Runtime} (self : Device.t) attribute data (log : Log)
  response :
  exchange (List.length log) (get_request self attribute data) = Ok response ->
  Device.__check_error response = Ok tt ->
  Device._get self attribute data log =
    (j <~ Response_json response ;; getitem j "Value",
     (log ++ [get_request self attribute data])%list).
Proof.
  intros E C. rewrite get_run, E. unfold get_outcome. simpl. now rewrite C.
Qed.

(** X6.  [Action] issues one PUT to [<base>/action] with the name under
    [Action] and the tuple of the other arguments under [Parameters], and
    returns what the decoded body holds under [Value]; when the body holds
    no [Value] it raises [KeyError], the request having been sent. *)
Theorem action_returns_value `{Runtime} :
  forall self name parameters log response j,
    exchange (List.length log)
      (mk_request PUT (Device.base_url self ++ "/action") []
         [("Action", PStr name); ("Parameters", PTuple parameters)])
      = Ok response ->
    Device.__check_error response = Ok tt ->
    json_loads (text response) = Some j ->
    Device.Action self name parameters log =
      (getitem j "Value",
       (log ++ [mk_request PUT (Device.base_url self ++ "/action") []
                  [("Action", PStr name);
                   ("Parameters", PTuple parameters)]])%list).
Proof.
  intros self name parameters log response j E C J.
  unfold Device.Action, bind.
  rewrite (put_passes self "action" _ log response E C).
  unfold Response_json. rewrite J. reflexivity.
Qed.

(** The body of a successful write holds no [Value]: the action is sent
    and [KeyError] is raised. *)
Lemma action_returns_value_witness :
  let rt := canned [mk_response 200 "done"]
              [("done", PDict [("ErrorNumber", PInt 0)])] in
  Device.Action telescope0 "reboot" [PInt 1; PStr "now"] [] =
    (Raise (KeyError (PStr "Value")),
     [mk_request PUT "http://10.0.0.5/api/v1/telescope/0/action" []
        [("Action", PStr "reboot");
         ("Parameters", PTuple [PInt 1; PStr "now"])]]).
Proof.
  intros rt.
  exact (@action_returns_value rt telescope0 "reboot" [PInt 1; PStr "now"]
           [] (mk_response 200 "done") (PDict [("ErrorNumber", PInt 0)])
           eq_refl eq_refl eq_refl).
Defined.

(** X7.  To a response that passes the classification and whose body
    holds no [Value], [CommandBlind] returns normally while [CommandBool]
    and [CommandString] raise [KeyError]; each has sent its one PUT, to
    [commandblind], [commandbool] and [commandstring]. *)
Theorem blind_command_needs_no_value `{Runtime} :
  forall self command raw log response d,
    (forall req, exchange (List.length log) req = Ok response) ->
    Device.__check_error response = Ok tt ->
    json_loads (text response) = Some (PDict d) ->
    dict_get d "Value" = None ->
    DeviceMethods.CommandBlind self command raw log =
      (Ok tt,
       (log ++ [put_request self "commandblind"
                  [("Command", PStr command); ("Raw", PBool raw)]])%list) /\
    DeviceMethods.CommandBool self command raw log =
      (Raise (KeyError (PStr "Value")),
       (log ++ [put_request self "commandbool"
                  [("Command", PStr command); ("Raw", PBool raw)]])%list) /\
    DeviceMethods.CommandString self command raw log =
      (Raise (KeyError (PStr "Value")),
       (log ++ [put_request self "commandstring"
                  [("Command", PStr command); ("Raw", PBool raw)]])%list).
Proof.
  intros self command raw log response d E C J V.
  unfold DeviceMethods.CommandBlind, DeviceMethods.CommandBool,
    DeviceMethods.CommandString, bind.
  rewrite !(fun a dt => put_passes self a dt log response (E _) C).
  unfold Response_json. rewrite J. unfold lift. simpl. rewrite V.
  repeat split.
Qed.

Lemma blind_command_needs_no_value_witness :
  let rt := canned [mk_response 200 "done"]
              [("done", PDict [("ErrorNumber", PInt 0)])] in
  fst (DeviceMethods.CommandBlind telescope0 ":GR#" true []) = Ok tt /\
  fst (DeviceMethods.CommandString telescope0 ":GR#" true [])
    = Raise (KeyError (PStr "Value")).
Proof.
  intros rt.
  destruct (@blind_command_needs_no_value rt telescope0 ":GR#" true []
              (mk_response 200 "done") [("ErrorNumber", PInt 0)]
              (fun _ => eq_refl) eq_refl eq_refl eq_refl) as (B & _ & S).
  rewrite B, S. split; reflexivity.
Defined.

(** X8.  Every write decodes the body, also when it discards the result:
    when the status is neither 400 nor 500 and the body does not decode,
    [_put] and with it [CommandBlind] raise [JSONDecodeError] after the
    request has been sent. *)
Theorem write_needs_a_body `{Runtime} :
  forall self command raw log response,
    exchange (List.length log)
      (put_request self "commandblind"
         [("Command", PStr command); ("Raw", PBool raw)]) = Ok response ->
    status_code response <> 400 ->
    status_code response <> 500 ->
    json_loads (text response) = None ->
    DeviceMethods.CommandBlind self command raw log =
      (Raise JSONDecodeError,
       (log ++ [put_request self "commandblind"
                  [("Command", PStr command); ("Raw", PBool raw)]])%list).
Proof.
  intros self command raw log response E E4 E5 J.
  unfold DeviceMethods.CommandBlind, bind.
  destruct (Z.eq_dec (status_code response) 200) as [E2 | E2].
  - rewrite (put_raises self _ _ log response JSONDecodeError E);
      [reflexivity |].
    rewrite (check_error_success _ E2). unfold Response_json. now rewrite J.
  - rewrite (put_passes self _ _ log response E
               (check_error_other _ E2 E4 E5)).
    unfold Response_json. now rewrite J.
Qed.

(** The server answers 204 with an empty body. *)
Lemma write_needs_a_body_witness :
  let rt := canned [mk_response 204 EmptyString] [] in
  fst (DeviceMethods.CommandBlind telescope0 ":Q#" false [])
    = Raise JSONDecodeError.
Proof.
  intros rt.
  rewrite (@write_needs_a_body rt telescope0 ":Q#" false []
             (mk_response 204 EmptyString) eq_refl);
    [reflexivity | simpl; lia | simpl; lia | reflexivity].
Defined.

(** *** The fields of [DriverInfo] *)

Lemma split_length (c : ascii) (s : string) :
  List.length (split c s) = S (count_char c s).
Proof.
  induction s as [| c' s IH]; simpl; [reflexivity |].
  destruct (Ascii.eqb c' c); simpl; [now rewrite IH |].
  destruct (split c s); simpl in *; [discriminate IH | exact IH].
Qed.

Lemma split_free (c : ascii) (s : string) :
  Forall (fun p => free_of c p = true) (split c s).
Proof.
  induction s as [| c' s IH]; simpl; [now constructor |].
  destruct (Ascii.eqb c' c) eqn:Ec; [now constructor |].
  destruct (split c s) as [| p ps]; [now constructor; simpl; rewrite ?Ec |].
  inversion IH as [| ? ? Hp Hps]; subst.
  constructor; [simpl; now rewrite Ec, Hp | exact Hps].
Qed.

Lemma lstrip_free (c : ascii) (s : string) :
  free_of c s = true -> free_of c (str_lstrip s) = true.
Proof.
  induction s as [| c' s IH]; simpl; [trivial |].
  intros F. destruct (is_space_str c'); [| exact F].
  apply andb_prop in F as [_ F]. auto.
Qed.

Lemma rstrip_free (c : ascii) (s : string) :
  free_of c s = true -> free_of c (str_rstrip s) = true.
Proof.
  induction s as [| c' s IH]; simpl; [trivial |].
  intros F. apply andb_prop in F as [Fc F]. specialize (IH F).
  destruct (str_rstrip s) as [| c'' r].
  - destruct (is_space_str c'); simpl; [reflexivity | now rewrite Fc].
  - simpl in *. now rewrite Fc, IH.
Qed.

Lemma lstrip_begins (s : string) : begins_blank (str_lstrip s) = false.
Proof.
  induction s as [| c s IH]; simpl; [reflexivity |].
  destruct (is_space_str c) eqn:Sc; [exact IH | simpl; exact Sc].
Qed.

Lemma rstrip_begins (s : string) :
  begins_blank s = false -> begins_blank (str_rstrip s) = false.
Proof.
  destruct s as [| c s]; simpl; [trivial |].
  intros Sc. destruct (str_rstrip s); [rewrite Sc |]; simpl; exact Sc.
Qed.

Lemma rstrip_ends (s : string) : ends_blank (str_rstrip s) = false.
Proof.
  induction s as [| c s IH]; simpl; [reflexivity |].
  destruct (str_rstrip s) as [| c' r].
  - destruct (is_space_str c) eqn:Sc; simpl; [reflexivity | exact Sc].
  - exact IH.
Qed.

Lemma strip_clean (c : ascii) (s : string) :
  free_of c s = true ->
  free_of c (strip s) = true /\
  begins_blank (strip s) = false /\ ends_blank (strip s) = false.
Proof.
  intros F. unfold strip. repeat split.
  - now apply rstrip_free, lstrip_free.
  - apply rstrip_begins, lstrip_begins.
  - apply rstrip_ends.
Qed.

(** X9.  When the server reports the driver information as a string,
    [DriverInfo] returns its comma-separated fields: one more field than
    the string has commas (so never an empty list), none holding a comma
    and none beginning or ending with white space. *)
Theorem driver_info_fields `{Runtime} :
  forall self log response j s,
    exchange (List.length log) (get_request self "driverinfo" [])
      = Ok response ->
    Device.__check_error response = Ok tt ->
    json_loads (text response) = Some j ->
    getitem j "Value" = Ok (PStr s) ->
    DeviceMethods.DriverInfo self log =
      (Ok (HasAttr (map strip (split "," s))),
       (log ++ [get_request self "driverinfo" []])%list) /\
    List.length (map strip (split "," s)) = S (count_char "," s) /\
    Forall (fun f => free_of "," f = true /\
                     begins_blank f = false /\ ends_blank f = false)
           (map strip (split "," s)).
Proof.
  intros self log response j s E C J V. split; [| split].
  - unfold DeviceMethods.DriverInfo, bind.
    rewrite (get_passes self _ _ log response E C).
    unfold Response_json. rewrite J. simpl. rewrite V. reflexivity.
  - now rewrite length_map, split_length.
  - apply Forall_map.
    eapply Forall_impl; [| apply (split_free "," s)].
    intros p F. now apply strip_clean.
Qed.

Lemma driver_info_fields_witness :
  let rt := canned [mk_response 200 "info"]
              [("info", PDict [("ErrorNumber", PInt 0);
                               ("Value", PStr "Simulator , v6.4,")])] in
  fst (DeviceMethods.DriverInfo telescope0 [])
    = Ok (HasAttr ["Simulator"; "v6.4"; EmptyString]).
Proof.
  intros rt.
  destruct (@driver_info_fields rt telescope0 [] (mk_response 200 "info")
              (PDict [("ErrorNumber", PInt 0);
                      ("Value", PStr "Simulator , v6.4,")])
              "Simulator , v6.4," eq_refl eq_refl eq_refl eq_refl)
    as (D & _).
  rewrite D. reflexivity.
Defined.

(** X10.  When the server reports the driver information as anything
    but a string (a number, a list, a null), [DriverInfo] ends in
    [AttributeError] for [split], the request having been sent. *)
Theorem driver_info_of_non_string `{Runtime} :
  forall self log response j v,
    exchange (List.length log) (get_request self "driverinfo" [])
      = Ok response ->
    Device.__check_error response = Ok tt ->
    json_loads (text response) = Some j ->
    getitem j "Value" = Ok v ->
    (forall s, v <> PStr s) ->
    DeviceMethods.DriverInfo self log =
      (Ok (AttributeError "split"),
       (log ++ [get_request self "driverinfo" []])%list).
Proof.
  intros self log response j v E C J V Ns.
  unfold DeviceMethods.DriverInfo, bind.
  rewrite (get_passes self _ _ log response E C).
  unfold Response_json. rewrite J. simpl. rewrite V. unfold ret.
  destruct v; try reflexivity. now destruct (Ns s).
Qed.

Lemma driver_info_of_non_string_witness :
  let rt := canned [mk_response 200 "info"]
              [("info", PDict [("ErrorNumber", PInt 0);
                               ("Value", PList [PStr "Simulator"])])] in
  fst (DeviceMethods.DriverInfo telescope0 []) = Ok (AttributeError "split").
Proof.
  intros rt.
  rewrite (@driver_info_of_non_string rt telescope0 []
             (mk_response 200 "info")
             (PDict [("ErrorNumber", PInt 0);
                     ("Value", PList [PStr "Simulator"])])
             (PList [PStr "Simulator"]) eq_refl eq_refl eq_refl eq_refl);
    [reflexivity | discriminate].
Defined.

(** * More of the factory *)

Lemma split3 (a b c : string) :
  no_slash a = true -> no_slash b = true -> no_slash c = true ->
  split "/" (a ++ "/" ++ b ++ "/" ++ c) = [a; b; c].
Proof.
  intros Na Nb Nc.
  change (a ++ "/" ++ b ++ "/" ++ c)
    with (a ++ String "/" (b ++ String "/" c)).
  now rewrite (split_app _ _ Na), (split_app _ _ Nb), (split_no_slash _ Nc).
Qed.

Lemma split2 (a b : string) :
  no_slash a = true -> no_slash b = true ->
  split "/" (a ++ "/" ++ b) = [a; b].
Proof.
  intros Na Nb. change (a ++ "/" ++ b) with (a ++ String "/" b).
  now rewrite (split_app _ _ Na), (split_no_slash _ Nb).
Qed.

Lemma CreateClient_class `{Runtime} (c : DeviceClass) (address number : string)
  (n : Z) :
  no_slash address = true ->
  py_int number = Some n ->
  CreateClient (class_name c ++ "/" ++ address ++ "/" ++ number) =
    Ok (Instance c
          (Device.mk address (device_type_of c) n 1
             ("http://" ++ address ++ "/api/v1/" ++ device_type_of c
                ++ "/" ++ decimal n))).
Proof.
  intros Na Pn. rewrite CreateClient_unfold.
  generalize (CreateClient_rec (pred recursion_limit)). intros self_call.
  rewrite (split3 _ _ _ (class_name_no_slash c) Na (py_int_no_slash _ _ Pn)).
  cbn [combine convert_all convert rbind]. rewrite Pn.
  cbn [rbind]. rewrite class_name_global.
  unfold call, class_init. rewrite Device_init_ok. reflexivity.
Qed.

(** X11.  The factory reads the first three components of a descriptor
    and ignores whatever follows a third [/]. *)
Theorem factory_ignores_a_tail `{Runtime} :
  forall a b c tail,
    no_slash a = true -> no_slash b = true -> no_slash c = true ->
    CreateClient (a ++ "/" ++ b ++ "/" ++ c ++ "/" ++ tail) =
    CreateClient (a ++ "/" ++ b ++ "/" ++ c).
Proof.
  intros a b c tail Na Nb Nc. rewrite !CreateClient_unfold.
  generalize (CreateClient_rec (pred recursion_limit)). intros self_call.
  rewrite (split3 _ _ _ Na Nb Nc).
  change (a ++ "/" ++ b ++ "/" ++ c ++ "/" ++ tail)
    with (a ++ String "/" (b ++ String "/" (c ++ String "/" tail))).
  rewrite (split_app _ _ Na), (split_app _ _ Nb), (split_app _ _ Nc).
  reflexivity.
Qed.

Lemma factory_ignores_a_tail_witness :
  let rt := canned [] [] in
  CreateClient "Telescope/10.0.0.5/0/api/v2" = CreateClient "Telescope/10.0.0.5/0".
Proof.
  intros rt.
  exact (@factory_ignores_a_tail rt "Telescope" "10.0.0.5" "0" "api/v2"
           eq_refl eq_refl eq_refl).
Defined.

(** X12.  A descriptor that names a device class and has fewer than
    three components raises [TypeError]: the number has no default. *)
Theorem factory_needs_a_number `{Runtime} :
  forall c address,
    no_slash address = true ->
    CreateClient (class_name c ++ "/" ++ address) = Raise TypeError /\
    CreateClient (class_name c) = Raise TypeError.
Proof.
  intros c address Na. rewrite !CreateClient_unfold.
  generalize (CreateClient_rec (pred recursion_limit)). intros self_call.
  rewrite (split2 _ _ (class_name_no_slash c) Na),
    (split_no_slash _ (class_name_no_slash c)).
  cbn [combine convert_all convert rbind]. rewrite class_name_global.
  split; reflexivity.
Qed.

Lemma factory_needs_a_number_witness :
  let rt := canned [] [] in
  CreateClient "Focuser/10.0.0.5:11111" = Raise TypeError /\
  CreateClient "Focuser" = Raise TypeError.
Proof.
  intros rt.
  exact (@factory_needs_a_number rt Focuser "10.0.0.5:11111" eq_refl).
Defined.

(** X13.  The third component is converted before the first is looked
    up: when it is not a number the factory raises [ValueError], whatever
    the first two components are. *)
Theorem factory_checks_the_number_first `{Runtime} :
  forall name number,
    nth_error (split "/" name) 2 = Some number ->
    py_int number = None ->
    CreateClient name = Raise ValueError.
Proof.
  intros name number N P. rewrite CreateClient_unfold.
  generalize (CreateClient_rec (pred recursion_limit)). intros self_call.
  destruct (split "/" name) as [| p0 [| p1 [| p2 rest]]]; try discriminate.
  injection N as ->.
  cbn [combine convert_all convert rbind]. now rewrite P.
Qed.

Lemma factory_checks_the_number_first_witness :
  let rt := canned [] [] in
  CreateClient "Telescope/10.0.0.5/zero" = Raise ValueError.
Proof.
  intros rt.
  exact (@factory_checks_the_number_first rt "Telescope/10.0.0.5/zero" "zero"
           eq_refl eq_refl).
Defined.

Lemma globals_get_In (g : list (string * Global)) (key : string) (v : Global) :
  globals_get g key = Some v -> In (key, v) g.
Proof.
  induction g as [| [k w] g IH]; simpl; [discriminate |].
  destruct (String.eqb_spec k key) as [-> | _].
  - intros E. injection E as ->. now left.
  - intros E. right. auto.
Qed.

Lemma global_class_name (key : string) (c : DeviceClass) :
  globals_get module_globals key = Some (GClass c) -> key = class_name c.
Proof.
  intros G. apply globals_get_In in G. simpl in G.
  repeat (destruct G as [G | G];
          [first [injection G as <- <-; reflexivity | discriminate G] |]).
  contradiction.
Qed.

Lemma call_without_arguments `{Runtime} f g c self :
  call f g [] <> Ok (Instance c self).
Proof.
  destruct g; simpl; try discriminate.
  destruct (call_foreign name []); discriminate.
Qed.

Lemma CreateClient_leaf_no_instance `{Runtime} (name : string) c self :
  no_slash name = true ->
  CreateClient_rec 1 name <> Ok (Instance c self).
Proof.
  intros N. cbn [CreateClient_rec]. rewrite (split_no_slash _ N).
  cbn [combine convert_all convert rbind].
  destruct (globals_get module_globals name);
    [apply call_without_arguments | discriminate].
Qed.

(** X14.  The factory returns an instance of a device class only for a
    descriptor whose first component is the name of that class and whose
    third component is a number; the instance then has the second
    component as its address, the device type of the class, the scheme
    [http] and the API version 1. *)
Theorem factory_instances_come_from_class_names `{Runtime} :
  forall name c self,
    CreateClient name = Ok (Instance c self) ->
    exists address number n,
      firstn 3 (split "/" name) = [class_name c; address; number] /\
      py_int number = Some n /\
      self = Device.mk address (device_type_of c) n 1
               ("http://" ++ address ++ "/api/v1/" ++ device_type_of c
                  ++ "/" ++ decimal n).
Proof.
  intros name c self. rewrite CreateClient_two_levels.
  change (CreateClient_rec 2 name) with
    (devname <~ convert_all
                  (combine [conv_str; conv_str; conv_int] (split "/" name)) ;;
     match devname with
     | PStr d0 :: args =>
         match globals_get module_globals d0 with
         | Some g => call (CreateClient_rec 1) g args
         | None => Raise (KeyError (PStr d0))
         end
     | d0 :: _ => Raise (KeyError d0)
     | [] => Raise IndexError
     end).
  pose proof (split_parts name) as P.
  destruct (split "/" name) as [| p0 [| p1 [| p2 rest]]];
    cbn [combine convert_all convert rbind firstn].
  - discriminate.
  - destruct (globals_get module_globals p0) as [g |]; [| discriminate].
    intros C. now apply call_without_arguments in C.
  - inversion P as [| ? ? _ P1]; inversion P1 as [| ? ? N1 _]; subst.
    destruct (globals_get module_globals p0) as [g |]; [| discriminate].
    destruct g as [c0 | | | | | | name0]; cbn [call]; try discriminate.
    + intros C. now apply CreateClient_leaf_no_instance in C.
    + destruct (call_foreign name0 [PStr p1]); discriminate.
  - destruct (py_int p2) as [n |] eqn:Pn; cbn [rbind]; [| discriminate].
    destruct (globals_get module_globals p0) as [g |] eqn:G;
      [| discriminate].
    destruct g as [c0 | | | | | | name0]; cbn [call]; try discriminate.
    + unfold class_init. rewrite Device_init_ok. cbn [rbind].
      intros C. injection C as <- <-.
      apply global_class_name in G. subst p0.
      exists p1, p2, n. repeat split. exact Pn.
    + destruct (call_foreign name0 [PStr p1; PInt n]); discriminate.
Qed.

Lemma factory_instances_come_from_class_names_witness :
  let rt := canned [] [] in
  exists address number n,
    firstn 3 (split "/" "Rotator/10.0.0.5/7") = ["Rotator"; address; number]
    /\ py_int number = Some n
    /\ Device.mk "10.0.0.5" "rotator" 7 1 "http://10.0.0.5/api/v1/rotator/7"
       = Device.mk address "rotator" n 1
           ("http://" ++ address ++ "/api/v1/" ++ "rotator" ++ "/" ++ decimal n).
Proof.
  intros rt.
  exact (@factory_instances_come_from_class_names rt "Rotator/10.0.0.5/7"
           Rotator _ eq_refl).
Defined.

(** X15.  The factory looks its first component up among all the names
    of the module, not among the device classes only: [Device] and
    [NumericError] with an address and a number raise [TypeError], while
    [ErrorMessage/<text>] returns an [ErrorMessage] exception object
    holding the text, without raising it. *)
Theorem factory_on_other_names `{Runtime} :
  forall address number n,
    no_slash address = true ->
    py_int number = Some n ->
    CreateClient ("Device/" ++ address ++ "/" ++ number) = Raise TypeError /\
    CreateClient ("NumericError/" ++ address ++ "/" ++ number)
      = Raise TypeError /\
    CreateClient ("ErrorMessage/" ++ address)
      = Ok (ExcInstance (ErrorMessage address)).
Proof.
  intros address number n Na Pn. rewrite !CreateClient_unfold.
  generalize (CreateClient_rec (pred recursion_limit)). intros self_call.
  change ("Device/" ++ address ++ "/" ++ number)
    with ("Device" ++ "/" ++ address ++ "/" ++ number).
  change ("NumericError/" ++ address ++ "/" ++ number)
    with ("NumericError" ++ "/" ++ address ++ "/" ++ number).
  change ("ErrorMessage/" ++ address)
    with ("ErrorMessage" ++ "/" ++ address).
  rewrite (split3 "Device" _ _ eq_refl Na (py_int_no_slash _ _ Pn)),
    (split3 "NumericError" _ _ eq_refl Na (py_int_no_slash _ _ Pn)),
    (split2 "ErrorMessage" _ eq_refl Na).
  cbn [combine convert_all convert rbind]. rewrite Pn.
  repeat split.
Qed.

Lemma factory_on_other_names_witness :
  let rt := canned [] [] in
  CreateClient "Device/10.0.0.5/0" = Raise TypeError /\
  CreateClient "NumericError/10.0.0.5/0" = Raise TypeError /\
  CreateClient "ErrorMessage/10.0.0.5"
    = Ok (ExcInstance (ErrorMessage "10.0.0.5")).
Proof.
  intros rt.
  exact (@factory_on_other_names rt "10.0.0.5" "0" 0 eq_refl eq_refl).
Defined.

(** *** [int] reads back what [%d] writes *)

Lemma digit_not_space (c : ascii) :
  sign_or_digit c = true -> is_space c = false.
Proof.
  destruct c as [[|] [|] [|] [|] [|] [|] [|] [|]];
    vm_compute; congruence.
Qed.

Lemma lstrip_rendering (s : string) : rendering s = true -> lstrip s = s.
Proof.
  destruct s as [| c s]; simpl; [reflexivity |].
  intros R. apply andb_prop in R as [Rc _].
  now rewrite (digit_not_space _ Rc).
Qed.

Lemma rstrip_rendering (s : string) : rendering s = true -> rstrip s = s.
Proof.
  induction s as [| c s IH]; simpl; [reflexivity |].
  intros R. apply andb_prop in R as [Rc R]. rewrite (IH R).
  destruct s; [now rewrite (digit_not_space _ Rc) | reflexivity].
Qed.

Lemma digits_step (c : ascii) (s : string) (acc : Z) (b : bool) :
  is_digit c = true ->
  digits (String c s) acc b = digits s (10 * acc + digit_val c) true.
Proof.
  simpl. now intros ->.
Qed.

Ltac read_digit acc :=
  rewrite digits_step by reflexivity;
  match goal with
  | |- digits _ (10 * _ + digit_val ?c) true = Some ?r =>
      let v := eval vm_compute in (digit_val c) in
      change (digit_val c) with v
  end.

Lemma digits_after (d : uint) :
  forall acc : positive,
    digits (NilEmpty.string_of_uint d) (Z.pos acc) true
    = Some (Z.pos (Pos.of_uint_acc d acc)).
Proof.
  induction d; intros acc; cbn [NilEmpty.string_of_uint Pos.of_uint_acc];
    [reflexivity | ..];
    (read_digit acc;
     match goal with
     | |- digits _ ?z true = Some (Z.pos (Pos.of_uint_acc _ ?p)) =>
         replace z with (Z.pos p) by lia
     end; apply IHd).
Qed.

Lemma digits_from_zero (d : uint) :
  forall b : bool,
    (d = Nil -> b = true) ->
    digits (NilEmpty.string_of_uint d) 0 b = Some (Z.of_N (Pos.of_uint d)).
Proof.
  induction d; intros b Hb;
    cbn [NilEmpty.string_of_uint Pos.of_uint];
    [rewrite (Hb eq_refl); reflexivity
    | read_digit 0; apply IHd; reflexivity
    | ..];
    (read_digit 0; apply digits_after).
Qed.

Lemma first_digit (d : uint) :
  d <> Nil ->
  exists c body,
    NilEmpty.string_of_uint d = String c body /\
    Ascii.eqb c "-" = false /\ Ascii.eqb c "+" = false.
Proof.
  destruct d; [congruence | ..]; intros _; simpl;
    eexists; eexists; repeat split.
Qed.

Lemma string_of_nonnil (d : uint) :
  d <> Nil -> NilZero.string_of_uint d = NilEmpty.string_of_uint d.
Proof.
  destruct d; [congruence | ..]; reflexivity.
Qed.

Lemma py_int_decimal (n : Z) : py_int (decimal n) = Some n.
Proof.
  unfold py_int.
  rewrite (lstrip_rendering _ (rendering_decimal n)),
    (rstrip_rendering _ (rendering_decimal n)).
  unfold decimal. destruct n as [| p | p]; [reflexivity | |];
    cbn [Z.to_int NilZero.string_of_int];
    pose proof (Unsigned.to_uint_nonnil p) as Nn;
    rewrite (string_of_nonnil _ Nn).
  - destruct (first_digit _ Nn) as (c & body & S & M & Pl).
    rewrite S, M, Pl, <- S.
    rewrite (digits_from_zero _ false) by (intros E; now destruct Nn).
    now rewrite Unsigned.of_to.
  - cbn [Ascii.eqb Bool.eqb]. cbv iota.
    rewrite (digits_from_zero _ false) by (intros E; now destruct Nn).
    now rewrite Unsigned.of_to.
Qed.

(** X16.  A descriptor built from the name of a device class, an address
    without [/] and the decimal rendering of an integer of at most 640
    digits, negative ones included, yields the instance of that class
    with that device number, and its base URL ends with the same
    rendering: [int] reads back what [%d] writes.  Up to 640 digits no
    setting of the interpreter limits the conversions between integers
    and strings (its default limit is 4300 digits). *)
Theorem factory_reads_back_the_number `{Runtime} :
  forall c address n,
    no_slash address = true ->
    Z.abs n < 10 ^ 640 ->
    py_int (decimal n) = Some n /\
    CreateClient (class_name c ++ "/" ++ address ++ "/" ++ decimal n) =
      Ok (Instance c
            (Device.mk address (device_type_of c) n 1
               ("http://" ++ address ++ "/api/v1/" ++ device_type_of c
                  ++ "/" ++ decimal n))).
Proof.
  intros c address n Na _. split; [apply py_int_decimal |].
  apply CreateClient_class; [exact Na | apply py_int_decimal].
Qed.

Lemma factory_reads_back_the_number_witness :
  let rt := canned [] [] in
  CreateClient "Switch/10.0.0.5/-42" =
    Ok (Instance Switch
          (Device.mk "10.0.0.5" "switch" (-42) 1
             "http://10.0.0.5/api/v1/switch/-42")).
Proof.
  intros rt.
  destruct (@factory_reads_back_the_number rt Switch "10.0.0.5" (-42)
              eq_refl) as [_ C]; [vm_compute; reflexivity |].
  exact C.
Defined.

(** *** Distinct devices have distinct base URLs *)

Lemma cut_at_slash (a b x y : string) :
  no_slash a = true -> no_slash b = true ->
  a ++ String "/" x = b ++ String "/" y -> a = b /\ x = y.
Proof.
  revert b. induction a as [| c a IH]; intros [| c' b]; simpl.
  - intros _ _ E. injection E as E. now split.
  - intros _ R E. injection E as E _. subst c'. discriminate.
  - intros R _ E. injection E as E _. subst c. discriminate.
  - intros R R' E. injection E as Ec E.
    apply andb_prop in R as [_ R]. apply andb_prop in R' as [_ R'].
    destruct (IH b R R' E) as [-> ->]. now subst.
Qed.

Lemma no_slash_app (a b : string) :
  no_slash a = true -> no_slash b = true -> no_slash (a ++ b) = true.
Proof.
  induction a as [| c a IH]; simpl; [trivial |].
  intros Na Nb. apply andb_prop in Na as [-> Na]. simpl. auto.
Qed.

Lemma append_cancel_colon (a b : string) : a ++ ":" = b ++ ":" -> a = b.
Proof.
  revert b. induction a as [| c a IH]; intros [| c' b]; simpl; intros E.
  - reflexivity.
  - injection E as _ E. destruct b; discriminate.
  - injection E as _ E. destruct a; discriminate.
  - injection E as -> E. now rewrite (IH b E).
Qed.

Lemma rendering_no_slash (s : string) : rendering s = true -> no_slash s = true.
Proof.
  induction s as [| c s IH]; simpl; [trivial |].
  intros R. apply andb_prop in R as [Rc R]. rewrite (IH R).
  destruct (Ascii.eqb_spec c "/") as [-> | _]; [discriminate | reflexivity].
Qed.

Lemma device_type_no_slash (c : DeviceClass) :
  no_slash (device_type_of c) = true.
Proof. destruct c; reflexivity. Qed.

Lemma device_type_inj (c c' : DeviceClass) :
  device_type_of c = device_type_of c' -> c = c'.
Proof. destruct c, c'; simpl; intros E; try reflexivity; discriminate. Qed.

Lemma scheme_split (s x : string) :
  s ++ String ":" x = (s ++ ":") ++ x.
Proof.
  induction s as [| k s IH]; simpl; [reflexivity | f_equal; exact IH].
Qed.

(** X17.  Two instances of device classes, built with schemes and
    addresses that hold no [/], have the same base URL only when they
    have the same class, address, device number, scheme and API
    version. *)
Theorem base_url_identifies_the_device `{Runtime} :
  forall c address number scheme version c' address' number' scheme' version'
         self self',
    no_slash scheme = true -> no_slash address = true ->
    no_slash scheme' = true -> no_slash address' = true ->
    class_init c address number (Some scheme) (Some version) = Ok self ->
    class_init c' address' number' (Some scheme') (Some version')
      = Ok self' ->
    Device.base_url self = Device.base_url self' ->
    c = c' /\ address = address' /\ number = number' /\
    scheme = scheme' /\ version = version'.
Proof.
  intros c address number scheme version c' address' number' scheme' version'
    self self' Ns Na Ns' Na' I I' E.
  unfold class_init in I, I'. rewrite Device_init_ok in I, I'.
  injection I as <-. injection I' as <-. cbn [Device.base_url] in E.
  rewrite (scheme_split scheme), (scheme_split scheme') in E.
  apply cut_at_slash in E;
    [| apply no_slash_app; [assumption | reflexivity] ..].
  destruct E as [Es E]. apply append_cancel_colon in Es. subst scheme'.
  injection E as E.
  apply cut_at_slash in E; [| assumption ..].
  destruct E as [<- E]. apply (append_cancel_l "api/v") in E.
  apply cut_at_slash in E;
    [| apply rendering_no_slash, rendering_decimal ..].
  destruct E as [Ev E]. apply decimal_inj in Ev. subst version'.
  apply cut_at_slash in E; [| apply device_type_no_slash ..].
  destruct E as [Ec En]. apply device_type_inj in Ec.
  apply decimal_inj in En. subst. repeat split.
Qed.

Lemma base_url_identifies_the_device_witness :
  let rt := canned [] [] in
  Telescope = Telescope /\ "10.0.0.5" = "10.0.0.5" /\ 0 = 0 /\
  "http" = "http" /\ 1 = 1.
Proof.
  intros rt.
  exact (@base_url_identifies_the_device rt
           Telescope "10.0.0.5" 0 "http" 1 Telescope "10.0.0.5" 0 "http" 1
           telescope0 telescope0
           eq_refl eq_refl eq_refl eq_refl eq_refl eq_refl eq_refl).
Defined.

(** * The accessors of the device classes *)

Lemma class_name_inj (c c' : DeviceClass) :
  String.eqb (class_name c) (class_name c') = true -> c = c'.
Proof. destruct c, c'; simpl; intros E; try reflexivity; discriminate. Qed.

Lemma same_owner_eq (a b : Accessor) :
  same_owner a b = true -> owner a = owner b.
Proof.
  unfold same_owner. destruct (owner a), (owner b); try discriminate.
  - reflexivity.
  - intros E. now rewrite (class_name_inj _ _ E).
Qed.

(** The accessors agree with the methods modelled one by one. *)
Lemma accessors_agree `{Runtime} (self : Device.t) (Id : Z) :
  invoke (mk_accessor (Only Switch) "GetSwitch" Plain Read "getswitch"
            [("Id", Some (PInt 0))]) self [PInt Id]
    = Switch.GetSwitch self Id /\
  invoke (mk_accessor (Only Telescope) "RightAscension" Property Read
            "rightascension" []) self []
    = Telescope.RightAscension self /\
  invoke (mk_accessor AnyDevice "Name" Property Read "name" []) self []
    = Device.Name self /\
  invoke (mk_accessor AnyDevice "Description" Property Read "name" []) self []
    = Device.Description self /\
  invoke (mk_accessor AnyDevice "Connected" Property Read "connected" [])
    self [] = Device.Connected self /\
  forallb (fun a => existsb (fun b =>
             same_owner a b && String.eqb (py_name a) (py_name b)
             && same_kind a b && String.eqb (wire a) (wire b)) accessors)
    [mk_accessor (Only Switch) "GetSwitch" Plain Read "getswitch"
       [("Id", Some (PInt 0))];
     mk_accessor (Only Telescope) "RightAscension" Property Read
       "rightascension" [];
     mk_accessor AnyDevice "Name" Property Read "name" [];
     mk_accessor AnyDevice "Description" Property Read "name" [];
     mk_accessor AnyDevice "Connected" Property Read "connected" []] = true.
Proof.
  repeat split.
Qed.

(** X18.  Every accessor addresses the attribute named like itself in
    lower case, with one exception: the property [Description] of
    [Device], which addresses [name]. *)
Theorem accessors_are_named_after_themselves :
  forall a,
    In a accessors ->
    wire a = lower (py_name a) \/
    (owner a = AnyDevice /\ py_name a = "Description" /\ wire a = "name").
Proof.
  assert (C : forallb (fun a => named_after_itself a || is_description a)
                accessors = true) by (vm_compute; reflexivity).
  rewrite forallb_forall in C. intros a I. specialize (C a I).
  apply orb_prop in C as [C | C].
  - left. now apply String.eqb_eq.
  - right. unfold is_description in C.
    destruct (owner a); [| discriminate].
    apply andb_prop in C as [C1 C2].
    apply String.eqb_eq in C1, C2. auto.
Qed.

Lemma accessors_are_named_after_themselves_witness :
  wire (mk_accessor (Only Camera) "CanSetCCDTemperature" Property Read
          "cansetccdtemperature" []) = lower "CanSetCCDTemperature" \/
  (owner (mk_accessor (Only Camera) "CanSetCCDTemperature" Property Read
            "cansetccdtemperature" []) = AnyDevice /\
   "CanSetCCDTemperature" = "Description" /\
   "cansetccdtemperature" = "name").
Proof.
  apply (accessors_are_named_after_themselves
           (mk_accessor (Only Camera) "CanSetCCDTemperature" Property Read
              "cansetccdtemperature" [])).
  apply (nth_error_In accessors 59). reflexivity.
Defined.

(** X19.  No two accessors that one device object has address the same
    attribute with the same kind of request under different names, with
    one exception: the attribute [name], which [Name] and [Description]
    both read. *)
Theorem endpoints_are_distinct :
  forall a b,
    In a accessors -> In b accessors ->
    together a b = true ->
    kind a = kind b ->
    wire a = wire b ->
    py_name a = py_name b \/ wire a = "name".
Proof.
  assert (C : forallb (fun a => forallb (distinct_endpoints a) accessors)
                accessors = true) by (vm_compute; reflexivity).
  rewrite forallb_forall in C. intros a b Ia Ib T K W.
  specialize (C a Ia). rewrite forallb_forall in C. specialize (C b Ib).
  unfold distinct_endpoints in C. rewrite T in C.
  assert (S : same_kind a b = true).
  { unfold same_kind. rewrite K. now destruct (kind b). }
  rewrite S in C. rewrite W in C at 1. rewrite String.eqb_refl in C.
  simpl in C. apply orb_prop in C as [C | C]; apply String.eqb_eq in C; auto.
Qed.

Lemma endpoints_are_distinct_witness :
  py_name (mk_accessor AnyDevice "Name" Property Read "name" []) =
  py_name (mk_accessor AnyDevice "Description" Property Read "name" []) \/
  wire (mk_accessor AnyDevice "Name" Property Read "name" []) = "name".
Proof.
  apply (endpoints_are_distinct
           (mk_accessor AnyDevice "Name" Property Read "name" [])
           (mk_accessor AnyDevice "Description" Property Read "name" []));
    try reflexivity;
    [apply (nth_error_In accessors 6) | apply (nth_error_In accessors 3)];
    reflexivity.
Defined.

(** X20.  Every property setter among the accessors issues a write with
    one keyword, spelled like the property, to the attribute that the
    getter of the same property of the same class reads. *)
Theorem setters_write_what_getters_read :
  forall a,
    In a accessors ->
    form a = PropertySetter ->
    kind a = Write /\
    (exists default, parameters a = [(py_name a, default)]) /\
    (exists g,
        In g accessors /\ form g = Property /\ kind g = Read /\
        parameters g = [] /\ owner g = owner a /\
        py_name g = py_name a /\ wire g = wire a).
Proof.
  assert (C : forallb setter_shape accessors = true)
    by (vm_compute; reflexivity).
  rewrite forallb_forall in C. intros a I F. specialize (C a I).
  unfold setter_shape in C. rewrite F in C.
  destruct (kind a); [discriminate |].
  destruct (parameters a) as [| [key default] [| ? ?]]; try discriminate.
  apply andb_prop in C as [Ck Cg]. apply String.eqb_eq in Ck. subst key.
  apply existsb_exists in Cg as (g & Ig & G). unfold is_getter_of in G.
  destruct (form g) eqn:Fg; try discriminate.
  destruct (kind g) eqn:Kg; try discriminate.
  destruct (parameters g) eqn:Pg; try discriminate.
  apply andb_prop in G as [G Gw]. apply andb_prop in G as [Go Gn].
  apply String.eqb_eq in Gw, Gn. apply same_owner_eq in Go.
  split; [reflexivity |]. split; [now exists default |].
  exists g. repeat split; auto.
Qed.

Lemma setters_write_what_getters_read_witness :
  kind (mk_accessor (Only Telescope) "SiteLatitude" PropertySetter Write
          "sitelatitude" [("SiteLatitude", None)]) = Write.
Proof.
  apply (setters_write_what_getters_read
           (mk_accessor (Only Telescope) "SiteLatitude" PropertySetter Write
              "sitelatitude" [("SiteLatitude", None)]));
    [apply (nth_error_In accessors 157); reflexivity | reflexivity].
Defined.

(** *** Calling an accessor *)

Lemma bind_args_exact (ps : list (string * option PyVal)) :
  forall args,
    List.length args = List.length ps ->
    bind_args ps args = Ok (combine (map fst ps) args).
Proof.
  induction ps as [| [key [d |]] ps IH]; intros [| v args] L; simpl in *;
    try discriminate; try reflexivity;
    injection L as L; now rewrite (IH _ L).
Qed.

Lemma bind_args_too_many (ps : list (string * option PyVal)) :
  forall args,
    (List.length ps < List.length args)%nat ->
    bind_args ps args = Raise TypeError.
Proof.
  induction ps as [| [key [d |]] ps IH]; intros [| v args] L; simpl in *;
    try lia; try reflexivity;
    rewrite IH by lia; reflexivity.
Qed.

(** X21.  An accessor called with as many arguments as it has parameters
    issues exactly one request, a GET for a read and a PUT for a write,
    to [<base>/<attribute>], with the arguments under the names of the
    parameters in their order; called with more arguments it raises
    [TypeError] and issues none; and a write that returns, returns
    [None], whatever the body of the response. *)
Theorem accessor_call `{Runtime} :
  forall a self args log,
    (List.length args = List.length (parameters a) ->
     snd (invoke a self args log) =
       (log ++ [mk_request (method_of (kind a))
                  (Device.base_url self ++ "/" ++ wire a) []
                  (combine (map fst (parameters a)) args)])%list) /\
    ((List.length (parameters a) < List.length args)%nat ->
     invoke a self args log = (Raise TypeError, log)) /\
    (kind a = Write ->
     forall v, fst (invoke a self args log) = Ok v -> v = PNone).
Proof.
  intros a self args log. unfold invoke, bind at 1, lift. split; [| split].
  - intros L. rewrite (bind_args_exact _ _ L).
    destruct (kind a); simpl.
    + now rewrite get_run.
    + unfold bind. rewrite put_run. simpl.
      destruct (rbind _ _); reflexivity.
  - intros L. now rewrite (bind_args_too_many _ _ L).
  - intros K v. rewrite K.
    destruct (bind_args (parameters a) args) as [kw | e]; simpl;
      [| discriminate].
    unfold bind. destruct (Device._put self (wire a) kw log) as [[r | e] l];
      simpl; [| discriminate].
    intros E. now injection E as <-.
Qed.

Lemma accessor_call_witness :
  let rt := canned [mk_response 200 "right-ascension"] bodies in
  invoke (mk_accessor (Only Telescope) "SlewToAltAz" Plain Write "slewtoaltaz"
            [("Azimuth", None); ("Altitude", None)])
    telescope0 [PInt 90; PInt 45; PInt 0] [] = (Raise TypeError, []) /\
  snd (invoke (mk_accessor (Only Telescope) "SlewToAltAz" Plain Write
                 "slewtoaltaz" [("Azimuth", None); ("Altitude", None)])
         telescope0 [PInt 90; PInt 45] []) =
    [mk_request PUT "http://10.0.0.5/api/v1/telescope/0/slewtoaltaz" []
       [("Azimuth", PInt 90); ("Altitude", PInt 45)]].
Proof.
  intros rt. split.
  - destruct (@accessor_call rt
                (mk_accessor (Only Telescope) "SlewToAltAz" Plain Write
                   "slewtoaltaz" [("Azimuth", None); ("Altitude", None)])
                telescope0 [PInt 90; PInt 45; PInt 0] []) as (_ & T & _).
    apply T. simpl. lia.
  - destruct (@accessor_call rt
                (mk_accessor (Only Telescope) "SlewToAltAz" Plain Write
                   "slewtoaltaz" [("Azimuth", None); ("Altitude", None)])
                telescope0 [PInt 90; PInt 45] []) as (O & _).
    apply O. reflexivity.
Defined.

(** X22.  Every reading accessor of [Switch] takes no argument or the
    one argument [Id] with the default 0, and called without an argument
    it does what it does for channel 0. *)
Theorem switch_reads_default_to_channel_0 `{Runtime} :
  forall a self log,
    In a accessors ->
    owner a = Only Switch ->
    kind a = Read ->
    (parameters a = [] \/ parameters a = [("Id", Some (PInt 0))]) /\
    (parameters a <> [] ->
     invoke a self [] log = invoke a self [PInt 0] log).
Proof.
  assert (C : forallb channel_default accessors = true)
    by (vm_compute; reflexivity).
  rewrite forallb_forall in C. intros a self log I O K. specialize (C a I).
  unfold channel_default in C. rewrite O, K in C.
  assert (P : parameters a = [] \/ parameters a = [("Id", Some (PInt 0))]).
  { destruct (parameters a) as [| [key d] rest]; [now left |]. right.
    destruct d as [v |]; [| discriminate].
    destruct v as [| | z | | | | | |]; try discriminate.
    destruct z; try discriminate.
    destruct rest; [| discriminate].
    apply String.eqb_eq in C. now subst. }
  split; [exact P |]. intros Ne. destruct P as [P | P]; [congruence |].
  unfold invoke. now rewrite P.
Qed.

Lemma switch_reads_default_to_channel_0_witness :
  let rt := canned [mk_response 200 "right-ascension"] bodies in
  invoke (mk_accessor (Only Switch) "GetSwitchValue" Plain Read
            "getswitchvalue" [("Id", Some (PInt 0))]) switch0 [] [] =
  invoke (mk_accessor (Only Switch) "GetSwitchValue" Plain Read
            "getswitchvalue" [("Id", Some (PInt 0))]) switch0 [PInt 0] [].
Proof.
  intros rt.
  destruct (@switch_reads_default_to_channel_0 rt
              (mk_accessor (Only Switch) "GetSwitchValue" Plain Read
                 "getswitchvalue" [("Id", Some (PInt 0))]) switch0 [])
    as [_ D];
    [apply (nth_error_In accessors 13); reflexivity
    | reflexivity | reflexivity |].
  apply D. discriminate.
Defined.

